(** * Deep-research pipeline: plan, fan-out search, write report, e-mail

    Shallow embedding of
      - [2_openai/deep_research/research_manager.py]
      - [training/deep_search/research_manager.py]
      - [training/deep_search/email_agent.py]   ([send_mail])
      - [training/deep_search/planner_agent.py], [writer_agent.py] (the
        pydantic models)

    The two research managers are the same program up to the texts they
    yield and the prompts they format; the embedding is written once over a
    record [Variant] holding those texts, with one instance per file.

    Everything outside the repository (the agents SDK's [Runner.run], the
    event loop's completion order, SendGrid's HTTP post, Python's [repr])
    is an explicit argument.  What the code writes to stdout with [print]
    and the SDK's [trace] context manager are not recorded. *)

From stdpp Require Import base list strings gmap.
From Stdlib Require Import ZArith.

Set Default Proof Using "Type".
Local Open Scope string_scope.
Local Open Scope list_scope.
Local Open Scope nat_scope.

(** ** Python values the code handles *)

Module Py.

(** What a [raise] can carry.  [except Exception] catches instances of
    [Exception]; [KeyboardInterrupt], [SystemExit], [GeneratorExit] and
    [asyncio.CancelledError] derive from [BaseException] only. *)
Inductive BaseException : Type :=
| Exception (cls msg : string)
| NonException (cls msg : string).

Definition isinstance_Exception (e : BaseException) : bool :=
  match e with
  | Exception _ _ => true
  | NonException _ _ => false
  end.

(** A call either returns a value or raises. *)
Inductive Outcome (A : Type) : Type :=
| Returns (a : A)
| Raises (e : BaseException).
Arguments Returns {A} a.
Arguments Raises {A} e.

(** [try: body / except Exception: return handler] *)
Definition try_except_Exception {A} (body : Outcome A) (handler : A) : Outcome A :=
  match body with
  | Returns a => Returns a
  | Raises e => if isinstance_Exception e then Returns handler else Raises e
  end.

Definition newline : string := String (Ascii.ascii_of_nat 10) EmptyString.

Fixpoint join (sep : string) (parts : list string) : string :=
  match parts with
  | [] => EmptyString
  | [p] => p
  | p :: rest => p +:+ sep +:+ join sep rest
  end.

(** [f"{xs}"] for a [list[str]]: the elements' [repr], comma separated,
    in brackets.  [repr] of a [str] is Python's own and is taken as an
    argument. *)
Definition format_list (repr : string → string) (xs : list string) : string :=
  "[" +:+ join ", " (repr <$> xs) +:+ "]".

End Py.
Export Py.

(** ** The pydantic models *)

(** [planner_agent.WebSearchItem] *)
Record WebSearchItem : Type := {
  reason : string;
  query : string;
}.

(** [planner_agent.WebSearchPlan] *)
Record WebSearchPlan : Type := {
  searches : list WebSearchItem;
}.

(** [writer_agent.ReportData] *)
Record ReportData : Type := {
  short_summary : string;
  markdown_report : string;
  follow_up_questions : list string;
}.

(** ** What a run does, in order *)

Inductive Agent : Type :=
| planner_agent
| search_agent
| writer_agent
| email_agent.

Inductive Event : Type :=
| Yielded (chunk : string)                      (* [yield chunk] *)
| RunnerRun (agent : Agent) (input : string)    (* [Runner.run(agent, input)] is issued *)
| Awaited (task : nat) (result : option string) (* [result = await task] in [perform_searches] *).

Global Instance Agent_eq_dec : EqDecision Agent.
Proof. solve_decision. Defined.
Global Instance Event_eq_dec : EqDecision Event.
Proof. solve_decision. Defined.

(** A coroutine run to its end: the events it caused, in order, and how it
    ended.  For the async generator [run] this is the generator driven by
    [async for] until it is exhausted or raises. *)
Record Trace (A : Type) : Type := MkTrace {
  events : list Event;
  outcome : Outcome A;
}.
Arguments MkTrace {A} events outcome.
Arguments events {A} t.
Arguments outcome {A} t.

Module TraceMonad.

Definition ret {A} (a : A) : Trace A := MkTrace [] (Returns a).

Definition bind {A B} (k : A → Trace B) (m : Trace A) : Trace B :=
  match outcome m with
  | Returns a => MkTrace (events m ++ events (k a)) (outcome (k a))
  | Raises e => MkTrace (events m) (Raises e)
  end.

Definition emit (ev : Event) : Trace unit := MkTrace [ev] (Returns tt).

(** A result computed elsewhere enters the coroutine: nothing is logged,
    an exception propagates. *)
Definition lift {A} (o : Outcome A) : Trace A := MkTrace [] o.

Definition yielded (ev : Event) : option string :=
  match ev with
  | Yielded chunk => Some chunk
  | _ => None
  end.

(** The progress stream: what the consumer of the generator receives. *)
Definition stream {A} (t : Trace A) : list string := omap yielded (events t).

End TraceMonad.
Export TraceMonad.

Global Instance Trace_ret : MRet Trace := @ret.
Global Instance Trace_bind : MBind Trace := @bind.

(** ** External collaborators *)

(** One [World] fixes what every external call answers during a run.  The
    agents SDK validates a final output against the agent's [output_type]
    ([WebSearchPlan] for the planner, [ReportData] for the writer) and
    raises otherwise; the search and e-mail agents declare none and answer
    text.  The search answer may depend on which task asks. *)
Record World : Type := {
  gen_trace_id : string;
  run_planner : string → Outcome WebSearchPlan;
  run_search : nat → string → Outcome string;
  run_writer : string → Outcome ReportData;
  run_email : string → Outcome string;
  repr : string → string;
}.

(** The event loop decides which pending task finishes next:
    [sched step] picks among the tasks still pending at that step. *)
Definition Scheduler : Type := nat → nat.

Fixpoint as_completed_from {A} (sched : Scheduler) (fuel step : nat)
    (pending : list A) : list A :=
  match fuel with
  | 0 => []
  | S fuel' =>
      let k := sched step `mod` length pending in
      match pending !! k with
      | Some t => t :: as_completed_from sched fuel' (S step) (delete k pending)
      | None => []
      end
  end.

(** [asyncio.as_completed(tasks)]: every task, once, in completion order. *)
Definition as_completed {A} (sched : Scheduler) (tasks : list A) : list A :=
  as_completed_from sched (length tasks) 0 tasks.

(** ** The two research managers *)

Record Variant : Type := {
  trace_url : string → string;
  msg_planned : string;
  msg_searched : string;
  msg_written : string;
  msg_sent : string;
  planner_prompt : string → string;
  search_prompt : WebSearchItem → string;
  writer_prompt : string → string → string;
}.

Definition view_trace (trace_id : string) : string :=
  "View trace: https://platform.openai.com/traces/trace?trace_id=" +:+ trace_id.

(** [2_openai/deep_research/research_manager.py] *)
Definition openai_deep_research : Variant := {|
  trace_url := view_trace;
  msg_planned := "Searches planned, starting to search...";
  msg_searched := "Searches complete, writing report...";
  msg_written := "Report written, sending email...";
  msg_sent := "Email sent, research complete";
  planner_prompt := λ q, "Query: " +:+ q;
  search_prompt := λ item,
    "Search term: " +:+ query item +:+ newline +:+
    "Reason for searching: " +:+ reason item;
  writer_prompt := λ q results,
    "Original query: " +:+ q +:+ newline +:+
    "Summarized search results: " +:+ results;
|}.

(** [training/deep_search/research_manager.py] *)
Definition training_deep_search : Variant := {|
  trace_url := view_trace;
  msg_planned := "Ricerca pianificata, inizio la ricerca...";
  msg_searched := "Ricerca completata, inizio la stesura del report...";
  msg_written := "Ho completato il report, preparo la mail...";
  msg_sent := "Ho iviato la mail";
  planner_prompt := λ q, "Query: " +:+ q;
  search_prompt := λ item,
    "Termine di ricerca" +:+ query item +:+ newline +:+
    "Motivazione della ricerca" +:+ reason item;
  writer_prompt := λ q results,
    "Chiave di ricerca " +:+ q +:+ " riassunta nei risultati: " +:+ results;
|}.

Module ResearchManager.

(** [result = await Runner.run(agent, input)] *)
Definition Runner_run {A} (agent : Agent) (oracle : string → Outcome A)
    (input : string) : Trace A :=
  emit (RunnerRun agent input);; lift (oracle input).

(** [plan_searches]: no [try]; [len(result.final_output.searches)] is
    only printed; the plan is returned as it came. *)
Definition plan_searches (v : Variant) (w : World) (q : string) : Trace WebSearchPlan :=
  result ← Runner_run planner_agent (run_planner w) (planner_prompt v q);
  let _ := length (searches result) in
  ret result.

(** [search], the body of task number [i]: the only [try] of the file. *)
Definition search (v : Variant) (w : World) (i : nat) (item : WebSearchItem)
    : Outcome (option string) :=
  let input := search_prompt v item in
  try_except_Exception
    (match run_search w i input with
     | Returns final_output => Returns (Some final_output)
     | Raises e => Raises e
     end)
    None.

(** [tasks = [asyncio.create_task(self.search(item)) for item in ...]].
    The tasks start, in creation order, at the coroutine's next
    suspension: each issues its [Runner.run] before any is awaited.  A
    task is its number and how its [search] ends. *)
Abbreviation Task := (nat * Outcome (option string))%type (only parsing).

Fixpoint create_tasks (v : Variant) (w : World) (i : nat)
    (items : list WebSearchItem) : Trace (list Task) :=
  match items with
  | [] => ret []
  | item :: rest =>
      emit (RunnerRun search_agent (search_prompt v item));;
      tasks ← create_tasks v w (S i) rest;
      ret ((i, search v w i item) :: tasks)
  end.

(** [result = await task]: the task's return value, or its exception
    re-raised in the awaiting coroutine. *)
Definition await (t : Task) : Trace (option string) :=
  result ← lift t.2;
  emit (Awaited t.1 result);;
  ret result.

(** The [for task in asyncio.as_completed(tasks)] loop. *)
Fixpoint collect (done : list Task) (results : list string) : Trace (list string) :=
  match done with
  | [] => ret results
  | task :: rest =>
      result ← await task;
      collect rest
        (match result with
         | Some r => results ++ [r]
         | None => results
         end)
  end.

Definition perform_searches (v : Variant) (w : World) (sched : Scheduler)
    (search_plan : WebSearchPlan) : Trace (list string) :=
  tasks ← create_tasks v w 0 (searches search_plan);
  collect (as_completed sched tasks) [].

Definition write_report (v : Variant) (w : World) (q : string)
    (search_results : list string) : Trace ReportData :=
  let input := writer_prompt v q (format_list (repr w) search_results) in
  Runner_run writer_agent (run_writer w) input.

Definition send_email (w : World) (report : ReportData) : Trace ReportData :=
  Runner_run email_agent (run_email w) (markdown_report report);;
  ret report.

(** [run] ([Run] in the training file): the async generator. *)
Definition run (v : Variant) (w : World) (sched : Scheduler) (q : string) : Trace unit :=
  emit (Yielded (trace_url v (gen_trace_id w)));;
  search_plan ← plan_searches v w q;
  emit (Yielded (msg_planned v));;
  search_results ← perform_searches v w sched search_plan;
  emit (Yielded (msg_searched v));;
  report ← write_report v w q search_results;
  emit (Yielded (msg_written v));;
  send_email w report;;
  emit (Yielded (msg_sent v));;
  emit (Yielded (markdown_report report)).

End ResearchManager.
Import ResearchManager.

(** ** The e-mail tool, [training/deep_search/email_agent.py] *)

Module EmailAgent.

(** What [sg.client.mail.send.post] hands back when it does not raise. *)
Record Response : Type := {
  status_code : Z;
  body : string;
}.

(** [Mail(from_email, to_email, subject, content).get()] *)
Record Mail : Type := {
  from_email : string;
  to_email : string;
  subject : string;
  content_type : string;
  content_value : string;
}.

(** SendGrid and the process environment. *)
Record SendGrid : Type := {
  getenv_SENDGRID_API_KEY : option string;
  post : option string → Mail → Outcome Response;
}.

(** The request body [send_mail] builds from its arguments. *)
Definition mail_for (subject html_body : string) : Mail := {|
  from_email := "federico.tognettigmail.com";
  to_email := "federico.tognetti@gmail.com";
  subject := subject;
  content_type := "text/html";
  content_value := html_body;
|}.

Definition send_mail (env : SendGrid) (subject html_body : string)
    : Outcome (gmap string string) :=
  let api_key := getenv_SENDGRID_API_KEY env in
  let mail := mail_for subject html_body in
  match post env api_key mail with
  | Returns response => Returns {[ "status" := "success" ]}
  | Raises e => Raises e
  end.

End EmailAgent.

(** ** Vocabulary of the properties *)

(** The tasks [create_tasks] spawns, numbered from [i]. *)
Fixpoint tasks_from (v : Variant) (w : World) (i : nat)
    (items : list WebSearchItem) : list Task :=
  match items with
  | [] => []
  | item :: rest => (i, search v w i item) :: tasks_from v w (S i) rest
  end.

(** The WorkResult of every item of a plan, in submission order. *)
Definition work_results (v : Variant) (w : World) (plan : WebSearchPlan)
    : list (Outcome (option string)) :=
  snd <$> tasks_from v w 0 (searches plan).

Definition is_Failure (r : Outcome (option string)) : bool :=
  match r with
  | Returns None => true
  | _ => false
  end.

Definition is_Success (r : Outcome (option string)) : bool :=
  match r with
  | Returns (Some _) => true
  | _ => false
  end.

Definition count {A} (p : A → bool) (xs : list A) : nat :=
  length (List.filter p xs).

Definition returned (t : Task) : Prop := ∃ r, t.2 = Returns r.

Definition payload (t : Task) : option string :=
  match t.2 with
  | Returns (Some s) => Some s
  | _ => None
  end.

(** The payloads of the successful tasks of a list, in its order. *)
Definition successes (done : list Task) : list string := omap payload done.

(** What awaiting a task logs: nothing when the task raises. *)
Definition join_event (t : Task) : option Event :=
  match t.2 with
  | Returns r => Some (Awaited t.1 r)
  | Raises _ => None
  end.

Definition search_call (v : Variant) (item : WebSearchItem) : Event :=
  RunnerRun search_agent (search_prompt v item).

Definition is_call (a : Agent) (ev : Event) : bool :=
  match ev with
  | RunnerRun a' _ => bool_decide (a = a')
  | _ => false
  end.

(** The events of the Searching stage. *)
Definition fan_out_event (ev : Event) : bool :=
  match ev with
  | RunnerRun search_agent _ => true
  | Awaited _ _ => true
  | _ => false
  end.

(** A chunk is yielded after [Runner.run(planner_agent, ...)] was issued. *)
Definition yields_after_planning (t : Trace unit) : Prop :=
  ∃ before input after chunk,
    events t = before ++ RunnerRun planner_agent input :: after ∧
    Yielded chunk ∈ after.

(** What [run] has logged once the planner has been called. *)
Definition planning_events (v : Variant) (w : World) (q : string) : list Event :=
  [ Yielded (trace_url v (gen_trace_id w));
    RunnerRun planner_agent (planner_prompt v q) ].

(** The prompt [write_report] builds. *)
Definition writer_input (v : Variant) (w : World) (q : string)
    (search_results : list string) : string :=
  writer_prompt v q (format_list (repr w) search_results).

(** The log of a run whose Searching stage has ended, up to the chunk that
    announces it. *)
Definition searched_events (v : Variant) (w : World) (sched : Scheduler)
    (q : string) (plan : WebSearchPlan) : list Event :=
  planning_events v w q ++
  Yielded (msg_planned v) :: events (perform_searches v w sched plan) ++
  [Yielded (msg_searched v)].

(** The log of a run whose report is written, up to the chunk that
    announces it. *)
Definition written_events (v : Variant) (w : World) (sched : Scheduler)
    (q : string) (plan : WebSearchPlan) (results : list string) : list Event :=
  searched_events v w sched q plan ++
  [RunnerRun writer_agent (writer_input v w q results); Yielded (msg_written v)].

(** ** Sample worlds *)

Module Sample.

Definition quote (s : string) : string := "'" +:+ s +:+ "'".

Definition plan3 : WebSearchPlan := {|
  searches := [
    {| reason := "background"; query := "rocq" |};
    {| reason := "tooling"; query := "stdpp" |};
    {| reason := "practice"; query := "verified software" |} ]
|}.

Definition empty_plan : WebSearchPlan := {| searches := [] |}.

Definition report : ReportData := {|
  short_summary := "Short.";
  markdown_report := "# Report";
  follow_up_questions := ["What next?"];
|}.

Definition timeout : BaseException := Exception "TimeoutError" "search timed out".
Definition refused : BaseException := Exception "APIConnectionError" "connection refused".
Definition interrupt : BaseException := NonException "KeyboardInterrupt" "interrupted".

Definition mk_world (planner : Outcome WebSearchPlan)
    (search : nat → Outcome string) (email : Outcome string) : World := {|
  gen_trace_id := "trace_01";
  run_planner := λ _, planner;
  run_search := λ i _, search i;
  run_writer := λ _, Returns report;
  run_email := λ _, email;
  repr := quote;
|}.

(** Task 1 fails, tasks 0 and 2 succeed. *)
Definition one_down (i : nat) : Outcome string :=
  match i with
  | 0 => Returns "alpha"
  | 1 => Raises timeout
  | _ => Returns "gamma"
  end.

Definition world_ok : World := mk_world (Returns plan3) one_down (Returns "sent").
Definition world_all_fail : World :=
  mk_world (Returns plan3) (λ _, Raises timeout) (Returns "sent").
Definition world_no_plan : World :=
  mk_world (Raises refused) one_down (Returns "sent").
Definition world_empty_plan : World :=
  mk_world (Returns empty_plan) one_down (Returns "sent").
Definition world_email_down : World :=
  mk_world (Returns plan3) one_down (Raises refused).
Definition world_interrupted : World :=
  mk_world (Returns plan3) (λ _, Raises interrupt) (Returns "sent").

(** Submission order, and its reverse for three tasks. *)
Definition fifo : Scheduler := λ _, 0.
Definition lifo : Scheduler := λ step, 2 - step.

Definition rejecting : EmailAgent.SendGrid := {|
  EmailAgent.getenv_SENDGRID_API_KEY := None;
  EmailAgent.post := λ _ _,
    Returns {| EmailAgent.status_code := 401; EmailAgent.body := "unauthorized" |};
|}.

End Sample.

(** ** The Gradio entry point, [training/deep_search/deep_research.py] *)

Module DeepResearch.

(** [async for chunk in gen: body(chunk)].  The generator's own events
    happen as it is resumed; every chunk it yields goes to the body and not
    to the outer consumer.  An exception of the body ends the loop with the
    generator left where it was; an exception of the generator leaves the
    loop once the chunks before it have been handled. *)
Fixpoint async_for_events (log : list Event) (body : string → Trace unit)
    : Trace unit :=
  match log with
  | [] => ret tt
  | Yielded chunk :: rest => body chunk;; async_for_events rest body
  | ev :: rest => emit ev;; async_for_events rest body
  end.

Definition async_for (gen : Trace unit) (body : string → Trace unit) : Trace unit :=
  async_for_events (events gen) body;;
  lift (outcome gen).

(** [run]: [async for chunk in ResearchManager().Run(query): yield chunk] *)
Definition run (w : World) (sched : Scheduler) (q : string) : Trace unit :=
  async_for (ResearchManager.run training_deep_search w sched q)
    (λ chunk, emit (Yielded chunk)).

End DeepResearch.

(** ** The chat with tools, [training/test3.py] *)

Module ToolChat.

(** The messages of the exceptions are not modelled. *)
Definition TypeError : BaseException := Exception "TypeError" EmptyString.
Definition UnboundLocalError : BaseException :=
  Exception "UnboundLocalError" EmptyString.

(** [tool_call.id], [tool_call.function.name], [tool_call.function.arguments] *)
Record ToolCall : Type := {
  id : string;
  name : string;
  arguments : string;
}.

(** [response.choices[0].message] *)
Record ChatMessage : Type := {
  content : option string;
  tool_calls : option (list ToolCall);
}.

(** [response.choices[0]] *)
Record Choice : Type := {
  finish_reason : string;
  message : ChatMessage;
}.

(** An entry of the list [messages]. *)
Inductive Message : Type :=
| RoleContent (role text : string)           (* [{"role": ..., "content": ...}] *)
| Assistant (m : ChatMessage)                (* the message object, appended as it is *)
| ToolMessage (text tool_call_id : string)   (* [{"role": "tool", "content": ..., "tool_call_id": ...}] *).

(** What [json.loads] returns: a [dict], whose keys are texts, or another
    JSON value. *)
Inductive Loaded (Obj : Type) : Type :=
| Mapping (kwargs : gmap string Obj)
| NotMapping (o : Obj).
Arguments Mapping {Obj} kwargs.
Arguments NotMapping {Obj} o.

(** What a tool returns: [{"recorded": "ok"}], [{}] or another object. *)
Inductive ToolResult (Obj : Type) : Type :=
| Recorded
| EmptyDict
| OtherResult (o : Obj).
Arguments Recorded {Obj}.
Arguments EmptyDict {Obj}.
Arguments OtherResult {Obj} o.

(** Python, the network and the other globals of the module.  A global
    that is missing or falsy is [None] in [other_globals]; one that is
    truthy and cannot be called is a function that raises. *)
Record Env (Obj : Type) : Type := {
  str : Obj → string;
  json_loads : string → Outcome (Loaded Obj);
  json_dumps : Obj → Outcome string;
  requests_post : string → Outcome unit;
  other_globals : string → option (gmap string Obj → Outcome (ToolResult Obj));
  create : list Message → Outcome Choice;
  system_prompt : string;
}.
Arguments str {Obj} e o.
Arguments json_loads {Obj} e s.
Arguments json_dumps {Obj} e o.
Arguments requests_post {Obj} e message.
Arguments other_globals {Obj} e name.
Arguments create {Obj} e messages.
Arguments system_prompt {Obj} e.

Definition dq : string := String (Ascii.ascii_of_nat 34) EmptyString.

(** [push]: posts the message; what the post answers is dropped. *)
Definition push {Obj} (env : Env Obj) (message : string) : Outcome unit :=
  match requests_post env message with
  | Returns _ => Returns tt
  | Raises e => Raises e
  end.

(** [record_user_details(name, email="Email non fornita", notes="Note non
    fornite")] called with keyword arguments. *)
Definition record_user_details {Obj} (env : Env Obj) (kwargs : gmap string Obj)
    : Outcome (ToolResult Obj) :=
  if decide (dom kwargs ⊆ ({["name"]} ∪ {["email"]} ∪ {["notes"]} : gset string)) then
    match kwargs !! "name" with
    | None => Raises TypeError
    | Some name =>
        let email := default "Email non fornita" (str env <$> kwargs !! "email") in
        let notes := default "Note non fornite" (str env <$> kwargs !! "notes") in
        match push env ("Ho salvato le informazioni dell'utente: " +:+ str env name +:+
                        ", con email: " +:+ email +:+
                        " e le seguenti note: " +:+ notes) with
        | Returns _ => Returns Recorded
        | Raises e => Raises e
        end
    end
  else Raises TypeError.

(** [record_unknown_question(question)] called with keyword arguments. *)
Definition record_unknown_question {Obj} (env : Env Obj) (kwargs : gmap string Obj)
    : Outcome (ToolResult Obj) :=
  if decide (dom kwargs ⊆ ({["question"]} : gset string)) then
    match kwargs !! "question" with
    | None => Raises TypeError
    | Some question =>
        match push env ("Ho salvato la seguente domanda a cui non so rispondere:" +:+
                        newline +:+ str env question) with
        | Returns _ => Returns Recorded
        | Raises e => Raises e
        end
    end
  else Raises TypeError.

(** [globals().get(tool_name)], when the result is truthy. *)
Definition globals_get {Obj} (env : Env Obj) (tool_name : string)
    : option (gmap string Obj → Outcome (ToolResult Obj)) :=
  if decide (tool_name = "record_user_details") then Some (record_user_details env)
  else if decide (tool_name = "record_unknown_question")
       then Some (record_unknown_question env)
  else other_globals env tool_name.

(** [json.dumps(result)] *)
Definition dumps {Obj} (env : Env Obj) (result : ToolResult Obj) : Outcome string :=
  match result with
  | Recorded =>
      Returns ("{" +:+ dq +:+ "recorded" +:+ dq +:+ ": " +:+ dq +:+ "ok" +:+ dq +:+ "}")
  | EmptyDict => Returns "{}"
  | OtherResult o => json_dumps env o
  end.

(** The [for] loop of [handle_tool_calls]: it parses the arguments of every
    call and leaves [tool_call] and [arguments] bound to the last one. *)
Fixpoint for_tool_calls {Obj} (env : Env Obj) (tool_calls : list ToolCall)
    (bound : option (ToolCall * Loaded Obj))
    : Outcome (option (ToolCall * Loaded Obj)) :=
  match tool_calls with
  | [] => Returns bound
  | tool_call :: rest =>
      match json_loads env (arguments tool_call) with
      | Returns args => for_tool_calls env rest (Some (tool_call, args))
      | Raises e => Raises e
      end
  end.

(** The tool called with the loaded arguments as keywords, if there is a
    tool, and the empty [dict] otherwise. *)
Definition call_tool {Obj} (env : Env Obj) (tool_name : string) (args : Loaded Obj)
    : Outcome (ToolResult Obj) :=
  match globals_get env tool_name with
  | Some tool =>
      match args with
      | Mapping kwargs => tool kwargs
      | NotMapping _ => Raises TypeError
      end
  | None => Returns EmptyDict
  end.

(** [handle_tool_calls]: what follows the loop is outside it and runs
    once, on the variables the loop left. *)
Definition handle_tool_calls {Obj} (env : Env Obj) (tool_calls : option (list ToolCall))
    : Outcome (list Message) :=
  match tool_calls with
  | None => Raises TypeError
  | Some calls =>
      match for_tool_calls env calls None with
      | Raises e => Raises e
      | Returns None => Raises UnboundLocalError
      | Returns (Some (tool_call, args)) =>
          match call_tool env (name tool_call) args with
          | Raises e => Raises e
          | Returns result =>
              match dumps env result with
              | Raises e => Raises e
              | Returns text => Returns [ToolMessage text (id tool_call)]
              end
          end
      end
  end.

(** The arguments of the call are a text [json.loads] accepts. *)
Definition parses {Obj} (env : Env Obj) (c : ToolCall) : Prop :=
  ∃ args, json_loads env (arguments c) = Returns args.

(** The [while not done] loop of [chat]; [None] when [fuel] rounds did not
    reach its end. *)
Fixpoint chat_loop {Obj} (env : Env Obj) (fuel : nat) (messages : list Message)
    : option (Outcome (option string)) :=
  match fuel with
  | 0 => None
  | S fuel' =>
      match create env messages with
      | Raises e => Some (Raises e)
      | Returns response =>
          if decide (finish_reason response = "tool_call") then
            match handle_tool_calls env (tool_calls (message response)) with
            | Raises e => Some (Raises e)
            | Returns results =>
                chat_loop env fuel' (messages ++ [Assistant (message response)] ++ results)
            end
          else Some (Returns (content (message response)))
      end
  end.

Definition chat {Obj} (env : Env Obj) (fuel : nat) (message : string)
    (history : list Message) : option (Outcome (option string)) :=
  chat_loop env fuel
    ([RoleContent "system" (system_prompt env)] ++ history ++
     [RoleContent "user" message]).

(** A sample: one tool known to the module, valid JSON everywhere, and a
    model that asks for tools forever. *)
Definition sample_env : Env string := {|
  str := λ o, o;
  json_loads := λ s,
    if decide (s = "bad") then Raises (Exception "JSONDecodeError" EmptyString)
    else Returns (Mapping {[ "email" := s ]});
  json_dumps := λ o, Returns o;
  requests_post := λ _, Returns tt;
  other_globals := λ _, None;
  create := λ _,
    Returns {| finish_reason := "tool_call";
               message := {| content := None;
                             tool_calls := Some [ {| id := "call_1"; name := "nothing";
                                                     arguments := "a" |} ] |} |};
  system_prompt := "You are a helpful assistant.";
|}.

(** The same with a model that answers at once. *)
Definition answering_env (reason : string) : Env string := {|
  str := str sample_env;
  json_loads := json_loads sample_env;
  json_dumps := json_dumps sample_env;
  requests_post := requests_post sample_env;
  other_globals := other_globals sample_env;
  create := λ _,
    Returns {| finish_reason := reason;
               message := {| content := Some "hello";
                             tool_calls := Some [ {| id := "call_1"; name := "nothing";
                                                     arguments := "a" |} ] |} |};
  system_prompt := system_prompt sample_env;
|}.

Definition call_nothing : ToolCall :=
  {| id := "call_1"; name := "nothing"; arguments := "a" |}.
Definition call_details : ToolCall :=
  {| id := "call_2"; name := "record_user_details"; arguments := "ada@example.org" |}.
Definition call_bad : ToolCall :=
  {| id := "call_3"; name := "record_unknown_question"; arguments := "bad" |}.

End ToolChat.

(** ** Further vocabulary *)

(** The inputs of the calls to one agent, in the order they were issued. *)
Definition call_input (a : Agent) (ev : Event) : option string :=
  match ev with
  | RunnerRun a' input => if decide (a = a') then Some input else None
  | _ => None
  end.

Definition calls_to (a : Agent) (log : list Event) : list string :=
  omap (call_input a) log.

(** The text a join handed to the loop of [perform_searches], if any. *)
Definition joined_payload (ev : Event) : option string :=
  match ev with
  | Awaited _ (Some s) => Some s
  | _ => None
  end.

(** The answers of the search agent to the items it answered, in
    submission order, the first item being task [i]. *)
Fixpoint search_outputs (v : Variant) (w : World) (i : nat)
    (items : list WebSearchItem) : list string :=
  match items with
  | [] => []
  | item :: rest =>
      match run_search w i (search_prompt v item) with
      | Returns out => out :: search_outputs v w (S i) rest
      | Raises _ => search_outputs v w (S i) rest
      end
  end.

Definition is_join (ev : Event) : bool :=
  match ev with
  | Awaited _ _ => true
  | _ => false
  end.

(** The four chunks a run yields before it calls the e-mail agent. *)
Definition status_chunks (v : Variant) (w : World) : list string :=
  [trace_url v (gen_trace_id w); msg_planned v; msg_searched v; msg_written v].

Module MoreSamples.

(** The writer's call fails. *)
Definition world_writer_down : World := {|
  gen_trace_id := "trace_02";
  run_planner := λ _, Returns Sample.plan3;
  run_search := λ i _, Sample.one_down i;
  run_writer := λ _, Raises Sample.refused;
  run_email := λ _, Returns "sent";
  repr := Sample.quote;
|}.

(** Task 1 is interrupted, tasks 0 and 2 succeed. *)
Definition world_one_interrupted : World :=
  Sample.mk_world (Returns Sample.plan3)
    (λ i, match i with
          | 1 => Raises Sample.interrupt
          | _ => Returns "text"
          end)
    (Returns "sent").

End MoreSamples.

(** * Properties *)

(** ** The trace monad *)

Section trace_monad.
Context {A B : Type}.
Implicit Types (m : Trace A) (k : A → Trace B).

Lemma bind_returns m k a :
  outcome m = Returns a →
  m ≫= k = MkTrace (events m ++ events (k a)) (outcome (k a)).
Proof. intros H. unfold mbind, Trace_bind, bind. by rewrite H. Qed.

Lemma bind_raises m k e :
  outcome m = Raises e → m ≫= k = MkTrace (events m) (Raises e).
Proof. intros H. unfold mbind, Trace_bind, bind. by rewrite H. Qed.

End trace_monad.

Example run_ok_stream :
  stream (run openai_deep_research Sample.world_ok Sample.lifo "q") =
  [ "View trace: https://platform.openai.com/traces/trace?trace_id=trace_01";
    "Searches planned, starting to search...";
    "Searches complete, writing report...";
    "Report written, sending email...";
    "Email sent, research complete";
    "# Report" ].
Proof. reflexivity. Qed.

Ltac log_eq :=
  f_equal; repeat (rewrite <- ?app_assoc; simpl); done.

Ltac trace_simpl :=
  repeat progress (unfold mbind, Trace_bind, bind, ret, emit, lift in *; simpl in * ).

(** ** Completion order *)

Lemma as_completed_from_perm {A} (sched : Scheduler) (fuel step : nat) (l : list A) :
  length l = fuel → as_completed_from sched fuel step l ≡ₚ l.
Proof.
  revert step l. induction fuel as [|fuel IH]; intros step l Hlen; simpl.
  - by destruct l.
  - assert (Hk : sched step `mod` length l < length l)
      by (apply Nat.mod_upper_bound; lia).
    destruct (lookup_lt_is_Some_2 _ _ Hk) as [t Ht]. rewrite Ht.
    etrans; [|symmetry; exact (delete_Permutation l _ t Ht)].
    constructor. apply IH. rewrite length_delete by eauto. lia.
Qed.

(** Every task comes out of [as_completed], exactly once. *)
Lemma as_completed_perm {A} (sched : Scheduler) (tasks : list A) :
  as_completed sched tasks ≡ₚ tasks.
Proof. by apply as_completed_from_perm. Qed.

Lemma as_completed_from_ext {A} (sched sched' : Scheduler) (fuel step : nat)
    (l : list A) :
  (∀ s, step ≤ s → sched s = sched' s) →
  as_completed_from sched fuel step l = as_completed_from sched' fuel step l.
Proof.
  revert step l. induction fuel as [|fuel IH]; intros step l Hext; [done|].
  simpl. rewrite <- (Hext step) by lia.
  destruct (l !! _); [|done]. f_equal. apply IH. intros s Hs. apply Hext. lia.
Qed.

Lemma as_completed_from_any_order {A} (l' l : list A) (step : nat) :
  l ≡ₚ l' → ∃ sched, as_completed_from sched (length l) step l = l'.
Proof.
  revert l step. induction l' as [|x l' IH]; intros l step Hperm.
  - apply Permutation_nil_r in Hperm as ->. by exists (λ _, 0).
  - assert (Hx : x ∈ l) by (rewrite Hperm; by left).
    apply list_elem_of_lookup in Hx as [k Hk].
    pose proof (lookup_lt_Some _ _ _ Hk) as Hlt.
    assert (Hrest : delete k l ≡ₚ l').
    { apply (Permutation_cons_inv (a := x)).
      by rewrite <- (delete_Permutation l k x Hk). }
    destruct (IH (delete k l) (S step) Hrest) as [sched Hsched].
    exists (λ s, if decide (s = step) then k else sched s).
    destruct l as [|y l]; [done|].
    rewrite length_delete in Hsched by eauto.
    cbn [length as_completed_from]. rewrite decide_True by done.
    rewrite Nat.mod_small by done. rewrite Hk. f_equal.
    rewrite <- Hsched. simpl. rewrite Nat.sub_0_r.
    apply as_completed_from_ext. intros s Hs. rewrite decide_False by lia. done.
Qed.

(** Conversely every order of the tasks is the completion order of some
    scheduler. *)
Lemma as_completed_any_order {A} (tasks order : list A) :
  tasks ≡ₚ order → ∃ sched, as_completed sched tasks = order.
Proof. apply as_completed_from_any_order. Qed.

(** ** The fan-out *)

Section fan_out.
Context (v : Variant) (w : World).

Lemma create_tasks_spec i items :
  create_tasks v w i items =
  MkTrace (search_call v <$> items) (Returns (tasks_from v w i items)).
Proof.
  revert i. induction items as [|item rest IH]; intros i; [done|].
  simpl. rewrite IH. trace_simpl. by rewrite app_nil_r.
Qed.

Lemma tasks_from_length i items :
  length (tasks_from v w i items) = length items.
Proof. revert i. induction items; intros; simpl; auto. Qed.

Lemma tasks_from_lookup i items j item :
  items !! j = Some item →
  tasks_from v w i items !! j = Some (i + j, search v w (i + j) item).
Proof.
  revert i j. induction items as [|x rest IH]; intros i [|j] H; simplify_eq/=.
  - by rewrite Nat.add_0_r.
  - change (tasks_from v w (S i) rest !! j = Some (i + S j, search v w (i + S j) item)).
    rewrite (IH (S i) j) by done. by replace (S i + j) with (i + S j) by lia.
Qed.

Lemma collect_returned done acc :
  Forall returned done →
  collect done acc = MkTrace (omap join_event done) (Returns (acc ++ successes done)).
Proof.
  revert acc. induction done as [|[i o] rest IH]; intros acc Hall.
  - simpl. unfold ret. by rewrite app_nil_r.
  - apply Forall_cons in Hall as [[r Hr] Hrest]. simpl in Hr. subst o.
    trace_simpl. rewrite IH by done. simpl.
    unfold successes, join_event, payload. simpl.
    destruct r; simpl; [by rewrite <- app_assoc | done].
Qed.

Lemma collect_outcome_inv done acc results :
  outcome (collect done acc) = Returns results → Forall returned done.
Proof.
  revert acc. induction done as [|[i o] rest IH]; intros acc H; [done|].
  destruct o as [r|e].
  - constructor; [by exists r|].
    trace_simpl. eauto.
  - by trace_simpl.
Qed.

Lemma perform_searches_unfold sched plan :
  perform_searches v w sched plan =
  let c := collect (as_completed sched (tasks_from v w 0 (searches plan))) [] in
  MkTrace ((search_call v <$> searches plan) ++ events c) (outcome c).
Proof.
  unfold perform_searches. rewrite create_tasks_spec.
  erewrite bind_returns by reflexivity. reflexivity.
Qed.

(** When every task returns, [perform_searches] issues every call, awaits
    every task and returns the payloads in completion order. *)
Lemma perform_searches_returned sched plan :
  let tasks := tasks_from v w 0 (searches plan) in
  Forall returned tasks →
  perform_searches v w sched plan =
  MkTrace ((search_call v <$> searches plan) ++
           omap join_event (as_completed sched tasks))
          (Returns (successes (as_completed sched tasks))).
Proof.
  intros tasks Hall. rewrite perform_searches_unfold. simpl.
  rewrite collect_returned; [done|].
  by rewrite as_completed_perm.
Qed.

Lemma perform_searches_inv sched plan results :
  outcome (perform_searches v w sched plan) = Returns results →
  Forall returned (tasks_from v w 0 (searches plan)).
Proof.
  rewrite perform_searches_unfold. simpl. intros H.
  apply collect_outcome_inv in H. by rewrite as_completed_perm in H.
Qed.

End fan_out.

(** ** Counting the work results *)

Section counting.
Context (v : Variant) (w : World).

Lemma count_le {A} (p : A → bool) (xs : list A) : count p xs ≤ length xs.
Proof.
  unfold count. induction xs as [|x xs IH]; simpl; [lia|].
  destruct (p x); simpl; lia.
Qed.

Lemma count_split (rs : list (Outcome (option string))) :
  count is_Failure rs + count is_Success rs ≤ length rs.
Proof.
  unfold count. induction rs as [|[[s|]|e] rs IH]; simpl; lia.
Qed.

(** When failures and successes add up to the whole batch, no task raised. *)
Lemma count_all_returned (tasks : list Task) :
  count is_Failure (snd <$> tasks) + count is_Success (snd <$> tasks) = length tasks →
  Forall returned tasks.
Proof.
  induction tasks as [|[i o] rest IH]; intros H; [constructor|].
  pose proof (count_split (snd <$> rest)) as Hle.
  rewrite length_fmap in Hle. unfold count in *.
  rewrite fmap_cons in H. set (rs := snd <$> rest) in *. clearbody rs.
  destruct o as [[s|]|e]; simpl in *.
  - constructor; [by eexists|]. apply IH. lia.
  - constructor; [by eexists|]. apply IH. lia.
  - lia.
Qed.

Lemma successes_length (tasks : list Task) :
  length (successes tasks) = count is_Success (snd <$> tasks).
Proof.
  unfold successes, count, payload.
  induction tasks as [|[i [[s|]|e]] rest IH]; [done|..];
    rewrite fmap_cons; simpl; auto.
Qed.

Lemma successes_as_completed sched (tasks : list Task) :
  successes (as_completed sched tasks) ≡ₚ successes tasks.
Proof. unfold successes. by rewrite as_completed_perm. Qed.

End counting.

(** ** Claims about the fan-out *)

(** C1.  A batch of [N] items of which [M] fail ([search] returns [None])
    and [N - M] succeed ([search] returns a text): under every completion
    order [perform_searches] returns, and the list it returns has length
    [N - M].  [M = N] gives the empty list, [M = 0] a list of length [N]. *)
Theorem perform_searches_length v w sched plan N M :
  length (searches plan) = N →
  count is_Failure (work_results v w plan) = M →
  count is_Success (work_results v w plan) = N - M →
  ∃ results,
    outcome (perform_searches v w sched plan) = Returns results ∧
    length results = N - M.
Proof.
  unfold work_results. intros HN HM HS.
  set (tasks := tasks_from v w 0 (searches plan)) in *.
  assert (Hlen : length tasks = N) by (by unfold tasks; rewrite tasks_from_length).
  assert (Hall : Forall returned tasks).
  { apply count_all_returned. pose proof (count_le is_Failure (snd <$> tasks)) as Hle.
    rewrite length_fmap in Hle. lia. }
  rewrite perform_searches_returned by done. simpl.
  eexists; split; [done|].
  fold tasks. rewrite (Permutation_length (successes_as_completed sched tasks)).
  by rewrite successes_length.
Qed.

Lemma perform_searches_length_witness :
  ∃ results,
    outcome (perform_searches openai_deep_research Sample.world_ok Sample.lifo
               Sample.plan3) = Returns results ∧
    length results = 3 - 1.
Proof.
  apply (perform_searches_length openai_deep_research Sample.world_ok Sample.lifo
           Sample.plan3 3 1); reflexivity.
Defined.

(** C2, as the code has it.  When the external call of a work item raises
    an instance of [Exception], [search] returns [None]; what derives from
    [BaseException] only passes through [except Exception] and reaches the
    caller. *)
Theorem search_except_Exception v w i item e :
  run_search w i (search_prompt v item) = Raises e →
  search v w i item =
    if isinstance_Exception e then Returns None else Raises e.
Proof. unfold search, try_except_Exception. by intros ->. Qed.

Lemma search_except_Exception_witness :
  search training_deep_search Sample.world_all_fail 2
    {| reason := "practice"; query := "verified software" |} =
  if isinstance_Exception Sample.timeout then Returns None else Raises Sample.timeout.
Proof.
  apply (search_except_Exception training_deep_search Sample.world_all_fail 2).
  reflexivity.
Defined.

(** C2 as stated fails: a [KeyboardInterrupt] raised by the external call
    leaves [search] as an exception. *)
Lemma search_propagates_interrupt :
  ¬ (∀ v w i item e,
       run_search w i (search_prompt v item) = Raises e →
       search v w i item = Returns None).
Proof.
  intros H.
  specialize (H openai_deep_research Sample.world_interrupted 0
                {| reason := "background"; query := "rocq" |}
                Sample.interrupt eq_refl).
  discriminate H.
Qed.

(** C8.  Whatever the completion order, [perform_searches] returns the same
    payloads: when it returns under one order it returns under every other,
    the two lists are permutations of each other and so the same set. *)
Theorem perform_searches_order_independent v w sched1 sched2 plan results1 :
  outcome (perform_searches v w sched1 plan) = Returns results1 →
  ∃ results2,
    outcome (perform_searches v w sched2 plan) = Returns results2 ∧
    results1 ≡ₚ results2 ∧
    list_to_set results1 =@{gset string} list_to_set results2.
Proof.
  intros H. pose proof (perform_searches_inv _ _ _ _ _ H) as Hall.
  rewrite perform_searches_returned in H by done. simpl in H. simplify_eq.
  rewrite perform_searches_returned by done. simpl.
  eexists; split; [done|].
  assert (Hperm : successes (as_completed sched1 (tasks_from v w 0 (searches plan)))
                  ≡ₚ successes (as_completed sched2 (tasks_from v w 0 (searches plan))))
    by (by rewrite !successes_as_completed).
  split; [done|]. by rewrite Hperm.
Qed.

Lemma perform_searches_order_independent_witness :
  ∃ results2,
    outcome (perform_searches openai_deep_research Sample.world_ok Sample.lifo
               Sample.plan3) = Returns results2 ∧
    ["alpha"; "gamma"] ≡ₚ results2 ∧
    list_to_set ["alpha"; "gamma"] =@{gset string} list_to_set results2.
Proof.
  apply (perform_searches_order_independent openai_deep_research Sample.world_ok
           Sample.fifo Sample.lifo Sample.plan3).
  reflexivity.
Defined.

(** The order itself does depend on the completion order. *)
Example perform_searches_order_differs :
  outcome (perform_searches openai_deep_research Sample.world_ok Sample.fifo Sample.plan3)
    = Returns ["alpha"; "gamma"] ∧
  outcome (perform_searches openai_deep_research Sample.world_ok Sample.lifo Sample.plan3)
    = Returns ["gamma"; "alpha"].
Proof. split; reflexivity. Qed.

(** ** The pipeline, case by case *)

Section pipeline.
Context (v : Variant) (w : World) (sched : Scheduler) (q : string).

Lemma run_unfold :
  run v w sched q =
  match run_planner w (planner_prompt v q) with
  | Raises e => MkTrace (planning_events v w q) (Raises e)
  | Returns plan =>
      let ps := perform_searches v w sched plan in
      let searching := planning_events v w q ++ Yielded (msg_planned v) :: events ps in
      match outcome ps with
      | Raises e => MkTrace searching (Raises e)
      | Returns results =>
          let input := writer_input v w q results in
          let writing :=
            searching ++ [Yielded (msg_searched v); RunnerRun writer_agent input] in
          match run_writer w input with
          | Raises e => MkTrace writing (Raises e)
          | Returns report =>
              let md := markdown_report report in
              let notifying :=
                writing ++ [Yielded (msg_written v); RunnerRun email_agent md] in
              match run_email w md with
              | Raises e => MkTrace notifying (Raises e)
              | Returns _ =>
                  MkTrace (notifying ++ [Yielded (msg_sent v); Yielded md]) (Returns tt)
              end
          end
      end
  end.
Proof.
  unfold run, plan_searches, write_report, send_email, Runner_run, writer_input.
  generalize (perform_searches v w sched). intros ps.
  trace_simpl.
  destruct (run_planner w (planner_prompt v q)) as [plan|e]; simpl; [|done].
  destruct (ps plan) as [log [results|e]]; simpl; [|done].
  destruct (run_writer w _) as [report|e]; simpl; [|done].
  destruct (run_email w _) as [sent|e]; simpl;
    by rewrite <- !app_assoc.
Qed.

End pipeline.

(** ** Where an event sits in a log *)

Section splitting.
Context {A : Type} (P : A → bool).

Lemma split_absent (l before after : list A) (x : A) :
  Forall (λ y, P y = false) l → l = before ++ x :: after → P x = true → False.
Proof.
  intros Hall -> Hx. apply Forall_app in Hall as [_ Hall].
  apply Forall_cons in Hall as [Hx' _]. congruence.
Qed.

(** An event that is the only one of its kind splits the log in one way. *)
Lemma split_at_unique (l1 l2 l1' l2' : list A) (x x' : A) :
  l1 ++ x :: l2 = l1' ++ x' :: l2' →
  P x = true →
  Forall (λ y, P y = false) l1' →
  Forall (λ y, P y = false) l2' →
  l1 = l1' ∧ x = x' ∧ l2 = l2'.
Proof.
  revert l1. induction l1' as [|y l1' IH]; intros l1 Heq Hx H1 H2.
  - destruct l1 as [|b l1]; simplify_eq/=; [done|].
    exfalso. eapply split_absent; [exact H2|reflexivity|done].
  - apply Forall_cons in H1 as [Hy H1].
    destruct l1 as [|b l1]; simplify_eq/=; [congruence|].
    destruct (IH l1) as (-> & -> & ->); auto.
Qed.

End splitting.

Section fan_out_events.
Context (v : Variant) (w : World).

Lemma collect_events done acc :
  Forall (λ ev, fan_out_event ev = true) (events (collect done acc)).
Proof.
  revert acc. induction done as [|[i [r|e]] rest IH]; intros acc; trace_simpl.
  - constructor.
  - constructor; [done|]. apply IH.
  - constructor.
Qed.

Lemma perform_searches_events sched plan :
  Forall (λ ev, fan_out_event ev = true) (events (perform_searches v w sched plan)).
Proof.
  rewrite perform_searches_unfold. simpl. apply Forall_app. split.
  - apply Forall_fmap, Forall_true. done.
  - apply collect_events.
Qed.

Lemma fan_out_not_call a ev :
  a ≠ search_agent → fan_out_event ev = true → is_call a ev = false.
Proof.
  intros Ha. destruct ev as [|a' ?|]; simpl; try done.
  destruct a'; try done. intros _. by apply bool_decide_eq_false.
Qed.

Lemma perform_searches_no_call a sched plan :
  a ≠ search_agent →
  Forall (λ ev, is_call a ev = false) (events (perform_searches v w sched plan)).
Proof.
  intros Ha. eapply Forall_impl; [apply perform_searches_events|].
  intros ev. by apply fan_out_not_call.
Qed.

Lemma perform_searches_silent sched plan :
  omap yielded (events (perform_searches v w sched plan)) = [].
Proof.
  induction (perform_searches_events sched plan) as [|ev l Hev _ IH]; [done|].
  destruct ev; simpl in *; done.
Qed.

(** Once [perform_searches] has returned, every task has been awaited. *)
Lemma perform_searches_joined sched plan results i item :
  outcome (perform_searches v w sched plan) = Returns results →
  searches plan !! i = Some item →
  ∃ r, search v w i item = Returns r ∧
       Awaited i r ∈ events (perform_searches v w sched plan).
Proof.
  intros Hret Hitem.
  pose proof (perform_searches_inv _ _ _ _ _ Hret) as Hall.
  pose proof (tasks_from_lookup v w 0 _ _ _ Hitem) as Htask. simpl in Htask.
  assert (Hin : (i, search v w i item) ∈ tasks_from v w 0 (searches plan))
    by (apply list_elem_of_lookup; eauto).
  destruct (proj1 (Forall_forall _ _) Hall _ Hin) as [r Hr]. simpl in Hr.
  exists r. split; [done|].
  rewrite perform_searches_returned by done. simpl.
  apply elem_of_app. right. apply list_elem_of_omap.
  exists (i, search v w i item). split.
  - by rewrite as_completed_perm.
  - unfold join_event. simpl. by rewrite Hr.
Qed.

End fan_out_events.

(** ** The stages of a run *)

Section stages.
Context (v : Variant) (w : World) (sched : Scheduler) (q : string).

Lemma planning_events_no_call a :
  a ≠ planner_agent →
  Forall (λ ev, is_call a ev = false) (planning_events v w q).
Proof.
  intros Ha. repeat constructor. simpl. apply bool_decide_eq_false. done.
Qed.

(** Up to the end of Searching the log holds no writer or e-mail call. *)
Lemma searched_no_call a plan :
  a ≠ planner_agent → a ≠ search_agent →
  Forall (λ ev, is_call a ev = false) (searched_events v w sched q plan).
Proof.
  intros Hp Hs. apply Forall_app. split; [by apply planning_events_no_call|].
  constructor; [done|]. apply Forall_app. split.
  - by apply perform_searches_no_call.
  - by repeat constructor.
Qed.

Lemma written_no_call plan results :
  Forall (λ ev, is_call email_agent ev = false) (written_events v w sched q plan results).
Proof.
  apply Forall_app. split; [by apply searched_no_call|]. by repeat constructor.
Qed.

Lemma written_stream plan results :
  omap yielded (written_events v w sched q plan results) =
  [trace_url v (gen_trace_id w); msg_planned v; msg_searched v; msg_written v].
Proof.
  unfold written_events, searched_events.
  rewrite !omap_app. cbn [omap list_omap planning_events yielded app].
  rewrite omap_app, perform_searches_silent. done.
Qed.

Lemma run_planner_raises e :
  run_planner w (planner_prompt v q) = Raises e →
  run v w sched q = MkTrace (planning_events v w q) (Raises e).
Proof. intros H. by rewrite run_unfold, H. Qed.

Lemma run_searching_raises plan e :
  run_planner w (planner_prompt v q) = Returns plan →
  outcome (perform_searches v w sched plan) = Raises e →
  run v w sched q =
  MkTrace (planning_events v w q ++
           Yielded (msg_planned v) :: events (perform_searches v w sched plan))
          (Raises e).
Proof. intros Hp Hs. by rewrite run_unfold, Hp; simpl; rewrite Hs. Qed.

Lemma run_writer_raises plan results e :
  run_planner w (planner_prompt v q) = Returns plan →
  outcome (perform_searches v w sched plan) = Returns results →
  run_writer w (writer_input v w q results) = Raises e →
  run v w sched q =
  MkTrace (searched_events v w sched q plan ++
           [RunnerRun writer_agent (writer_input v w q results)])
          (Raises e).
Proof.
  intros Hp Hs Hw. rewrite run_unfold, Hp. cbv zeta. rewrite Hs, Hw.
  unfold searched_events. log_eq.
Qed.

(** The report was written: the e-mail agent is called next, and only
    after it returns are the last two chunks yielded. *)
Lemma run_to_email plan results report :
  run_planner w (planner_prompt v q) = Returns plan →
  outcome (perform_searches v w sched plan) = Returns results →
  run_writer w (writer_input v w q results) = Returns report →
  run v w sched q =
  match run_email w (markdown_report report) with
  | Raises e =>
      MkTrace (written_events v w sched q plan results ++
               [RunnerRun email_agent (markdown_report report)])
              (Raises e)
  | Returns _ =>
      MkTrace (written_events v w sched q plan results ++
               RunnerRun email_agent (markdown_report report) ::
               [Yielded (msg_sent v); Yielded (markdown_report report)])
              (Returns tt)
  end.
Proof.
  intros Hp Hs Hw. rewrite run_unfold, Hp. cbv zeta. rewrite Hs, Hw.
  unfold written_events, searched_events.
  destruct (run_email w _) as [sent|e]; log_eq.
Qed.

(** Searching returned: the writer is called next, once. *)
Lemma run_to_writer plan results :
  run_planner w (planner_prompt v q) = Returns plan →
  outcome (perform_searches v w sched plan) = Returns results →
  ∃ tail,
    events (run v w sched q) =
      searched_events v w sched q plan ++
      RunnerRun writer_agent (writer_input v w q results) :: tail ∧
    Forall (λ ev, is_call writer_agent ev = false) tail.
Proof.
  intros Hp Hs.
  destruct (run_writer w (writer_input v w q results)) as [report|e] eqn:Hw.
  - rewrite (run_to_email plan results report Hp Hs Hw). unfold written_events.
    destruct (run_email w _) as [sent|e]; cbn [events]; rewrite <- !app_assoc;
      eexists; (split; [reflexivity|]); by repeat constructor.
  - rewrite (run_writer_raises plan results e Hp Hs Hw). cbn [events].
    eexists; split; [reflexivity|]. constructor.
Qed.

End stages.

(** ** Claims about the pipeline *)

(** C3.  In every run, when the writer is called every task of the batch
    has been awaited: each item's [search] has returned a text or [None]
    and its join is in the log before the call. *)
Theorem writer_after_all_joined v w sched q before input after :
  events (run v w sched q) = before ++ RunnerRun writer_agent input :: after →
  ∃ plan,
    run_planner w (planner_prompt v q) = Returns plan ∧
    ∀ i item, searches plan !! i = Some item →
      ∃ r, search v w i item = Returns r ∧ Awaited i r ∈ before.
Proof.
  intros Hsplit.
  destruct (run_planner w (planner_prompt v q)) as [plan|e] eqn:Hp.
  2: { rewrite (run_planner_raises _ _ _ _ _ Hp) in Hsplit. simpl in Hsplit.
       exfalso. eapply (split_absent (is_call writer_agent));
         [by apply planning_events_no_call|exact Hsplit|by apply bool_decide_eq_true]. }
  destruct (outcome (perform_searches v w sched plan)) as [results|e] eqn:Hs.
  2: { rewrite (run_searching_raises _ _ _ _ _ _ Hp Hs) in Hsplit. simpl in Hsplit.
       exfalso. eapply (split_absent (is_call writer_agent));
         [|exact Hsplit|by apply bool_decide_eq_true].
       repeat (constructor; [reflexivity|]). by apply perform_searches_no_call. }
  exists plan. split; [done|]. intros i item Hitem.
  destruct (run_to_writer v w sched q plan results Hp Hs) as (tail & Hev & Htail).
  rewrite Hev in Hsplit. symmetry in Hsplit.
  apply (split_at_unique (is_call writer_agent)) in Hsplit as (-> & _ & _);
    [|by apply bool_decide_eq_true|by apply searched_no_call|done].
  destruct (perform_searches_joined v w sched plan results i item Hs Hitem)
    as (r & Hr & Hin).
  exists r. split; [done|].
  apply elem_of_app. right. apply elem_of_cons. right.
  apply elem_of_app. by left.
Qed.

Lemma writer_after_all_joined_witness :
  ∃ plan,
    run_planner Sample.world_ok (planner_prompt openai_deep_research "q") = Returns plan ∧
    ∀ i item, searches plan !! i = Some item →
      ∃ r, search openai_deep_research Sample.world_ok i item = Returns r ∧
           Awaited i r ∈
             firstn 10 (events (run openai_deep_research Sample.world_ok Sample.lifo "q")).
Proof.
  apply (writer_after_all_joined openai_deep_research Sample.world_ok Sample.lifo "q"
           (firstn 10 (events (run openai_deep_research Sample.world_ok Sample.lifo "q")))
           (writer_input openai_deep_research Sample.world_ok "q" ["gamma"; "alpha"])
           (skipn 11 (events (run openai_deep_research Sample.world_ok Sample.lifo "q")))).
  reflexivity.
Defined.

(** C4.  A run that ends without an exception has yielded six chunks, the
    last of which is the report's [markdown_report]; it is the last event of
    the run, so nothing is yielded after it. *)
Theorem run_final_chunk v w sched q :
  outcome (run v w sched q) = Returns tt →
  ∃ plan results report,
    run_planner w (planner_prompt v q) = Returns plan ∧
    outcome (perform_searches v w sched plan) = Returns results ∧
    run_writer w (writer_input v w q results) = Returns report ∧
    stream (run v w sched q) =
      [ trace_url v (gen_trace_id w); msg_planned v; msg_searched v;
        msg_written v; msg_sent v; markdown_report report ] ∧
    last (stream (run v w sched q)) = Some (markdown_report report) ∧
    last (events (run v w sched q)) = Some (Yielded (markdown_report report)).
Proof.
  intros Hdone.
  destruct (run_planner w (planner_prompt v q)) as [plan|e] eqn:Hp.
  2: { by rewrite (run_planner_raises _ _ _ _ _ Hp) in Hdone. }
  destruct (outcome (perform_searches v w sched plan)) as [results|e] eqn:Hs.
  2: { by rewrite (run_searching_raises _ _ _ _ _ _ Hp Hs) in Hdone. }
  destruct (run_writer w (writer_input v w q results)) as [report|e] eqn:Hw.
  2: { rewrite run_unfold, Hp in Hdone. simpl in Hdone. by rewrite Hs, Hw in Hdone. }
  exists plan, results, report. do 3 (split; [done|]).
  rewrite (run_to_email v w sched q plan results report Hp Hs Hw) in *.
  destruct (run_email w (markdown_report report)) as [sent|e]; [|done].
  unfold stream. cbn [events].
  rewrite omap_app, written_stream. cbn [omap list_omap yielded app].
  do 2 (split; [done|]).
  by rewrite last_app_cons.
Qed.

Lemma run_final_chunk_witness :
  ∃ plan results report,
    run_planner Sample.world_ok (planner_prompt training_deep_search "q") = Returns plan ∧
    outcome (perform_searches training_deep_search Sample.world_ok Sample.fifo plan)
      = Returns results ∧
    run_writer Sample.world_ok (writer_input training_deep_search Sample.world_ok "q" results)
      = Returns report ∧
    stream (run training_deep_search Sample.world_ok Sample.fifo "q") =
      [ trace_url training_deep_search (gen_trace_id Sample.world_ok);
        msg_planned training_deep_search; msg_searched training_deep_search;
        msg_written training_deep_search; msg_sent training_deep_search;
        markdown_report report ] ∧
    last (stream (run training_deep_search Sample.world_ok Sample.fifo "q"))
      = Some (markdown_report report) ∧
    last (events (run training_deep_search Sample.world_ok Sample.fifo "q"))
      = Some (Yielded (markdown_report report)).
Proof.
  apply (run_final_chunk training_deep_search Sample.world_ok Sample.fifo "q").
  reflexivity.
Defined.

(** C5, as the code has it.  When the planner's call raises, the run ends
    with that exception right after the call: the log holds the trace URL
    chunk and the planner call and nothing else, so no search, writer or
    e-mail call is issued, no report exists, and no chunk is yielded
    after the failure. *)
Theorem run_planning_failure v w sched q e :
  run_planner w (planner_prompt v q) = Raises e →
  run v w sched q =
    MkTrace [ Yielded (trace_url v (gen_trace_id w));
              RunnerRun planner_agent (planner_prompt v q) ]
            (Raises e) ∧
  stream (run v w sched q) = [trace_url v (gen_trace_id w)] ∧
  ¬ yields_after_planning (run v w sched q).
Proof.
  intros Hp. rewrite (run_planner_raises v w sched q e Hp).
  split; [done|]. split; [done|].
  intros (before & input & after & chunk & Hev & Hin).
  cbn [events] in Hev. unfold planning_events in Hev.
  destruct before as [|b1 [|b2 [|b3 before]]]; simplify_eq/=.
  by apply elem_of_nil in Hin.
Qed.

Lemma run_planning_failure_witness :
  run openai_deep_research Sample.world_no_plan Sample.fifo "q" =
    MkTrace [ Yielded (trace_url openai_deep_research (gen_trace_id Sample.world_no_plan));
              RunnerRun planner_agent (planner_prompt openai_deep_research "q") ]
            (Raises Sample.refused) ∧
  stream (run openai_deep_research Sample.world_no_plan Sample.fifo "q") =
    [trace_url openai_deep_research (gen_trace_id Sample.world_no_plan)] ∧
  ¬ yields_after_planning (run openai_deep_research Sample.world_no_plan Sample.fifo "q").
Proof.
  apply (run_planning_failure openai_deep_research Sample.world_no_plan Sample.fifo "q").
  reflexivity.
Defined.

(** C5 as stated fails: with a planner that raises, the stream carries the
    trace URL, yielded before planning, and no event after the failure. *)
Lemma planning_failure_emits_no_error_event :
  ¬ (∀ v w sched q e,
       run_planner w (planner_prompt v q) = Raises e →
       (∀ input, RunnerRun search_agent input ∉ events (run v w sched q)) ∧
       yields_after_planning (run v w sched q)).
Proof.
  intros H.
  destruct (H training_deep_search Sample.world_no_plan Sample.lifo "q"
              Sample.refused eq_refl)
    as (_ & before & input & after & chunk & Hev & Hin).
  vm_compute in Hev.
  destruct before as [|b1 [|b2 [|b3 before]]]; simplify_eq/=.
  by apply elem_of_nil in Hin.
Qed.

(** ** Total search failure *)

Lemma tasks_from_all_failed v w i items :
  (∀ j item, items !! j = Some item → search v w (i + j) item = Returns None) →
  Forall (λ t, t.2 = Returns None) (tasks_from v w i items).
Proof.
  revert i. induction items as [|item rest IH]; intros i H; [constructor|].
  simpl. constructor.
  - simpl. rewrite <- (H 0 item eq_refl). f_equal. lia.
  - apply IH. intros j item' Hj. rewrite <- (H (S j) item' Hj). f_equal. lia.
Qed.

Lemma successes_all_failed (tasks : list Task) :
  Forall (λ t, t.2 = Returns None) tasks → successes tasks = [].
Proof.
  unfold successes, payload.
  induction 1 as [|[i o] rest Ho _ IH]; [done|]. simpl in *. by rewrite Ho.
Qed.

(** C6.  When every item of the batch fails, [perform_searches] returns the
    empty list and raises nothing; the writer is called all the same, with
    the prompt built from the empty list; and when the writer and the
    e-mail agent return, the run ends normally with the report as last
    chunk. *)
Theorem run_all_searches_failed v w sched q plan :
  run_planner w (planner_prompt v q) = Returns plan →
  (∀ i item, searches plan !! i = Some item → search v w i item = Returns None) →
  outcome (perform_searches v w sched plan) = Returns [] ∧
  RunnerRun writer_agent (writer_input v w q []) ∈ events (run v w sched q) ∧
  ∀ report sent,
    run_writer w (writer_input v w q []) = Returns report →
    run_email w (markdown_report report) = Returns sent →
    outcome (run v w sched q) = Returns tt ∧
    last (stream (run v w sched q)) = Some (markdown_report report).
Proof.
  intros Hp Hfail.
  pose proof (tasks_from_all_failed v w 0 (searches plan) Hfail) as Hnone.
  assert (Hall : Forall returned (tasks_from v w 0 (searches plan)))
    by (eapply Forall_impl; [exact Hnone|]; intros t Ht; by exists None).
  assert (Hs : outcome (perform_searches v w sched plan) = Returns []).
  { rewrite perform_searches_returned by done. cbn [outcome]. f_equal.
    apply Permutation_nil_r. rewrite successes_as_completed.
    by rewrite successes_all_failed. }
  split; [done|]. split.
  - destruct (run_to_writer v w sched q plan [] Hp Hs) as (tail & -> & _).
    apply elem_of_app. right. by left.
  - intros report sent Hw He.
    rewrite (run_to_email v w sched q plan [] report Hp Hs Hw), He.
    split; [done|]. unfold stream. cbn [events].
    rewrite omap_app, written_stream. reflexivity.
Qed.

Lemma run_all_searches_failed_witness :
  outcome (perform_searches openai_deep_research Sample.world_all_fail Sample.lifo
             Sample.plan3) = Returns [] ∧
  RunnerRun writer_agent (writer_input openai_deep_research Sample.world_all_fail "q" [])
    ∈ events (run openai_deep_research Sample.world_all_fail Sample.lifo "q") ∧
  ∀ report sent,
    run_writer Sample.world_all_fail
      (writer_input openai_deep_research Sample.world_all_fail "q" []) = Returns report →
    run_email Sample.world_all_fail (markdown_report report) = Returns sent →
    outcome (run openai_deep_research Sample.world_all_fail Sample.lifo "q") = Returns tt ∧
    last (stream (run openai_deep_research Sample.world_all_fail Sample.lifo "q"))
      = Some (markdown_report report).
Proof.
  apply (run_all_searches_failed openai_deep_research Sample.world_all_fail Sample.lifo
           "q" Sample.plan3).
  - reflexivity.
  - intros i item Hitem. reflexivity.
Defined.

(** ** Notification *)

(** C7, as the code has it.  When the e-mail agent is called the report has
    been written and is what the call receives, and the stream holds the
    four status chunks up to the one that announces the report; the
    report's text itself is yielded only after the call has returned, as
    the last chunk.  When the call raises, the run ends with that exception
    and nothing more is yielded. *)
Theorem email_call_position v w sched q before input after :
  events (run v w sched q) = before ++ RunnerRun email_agent input :: after →
  ∃ plan results report,
    run_planner w (planner_prompt v q) = Returns plan ∧
    outcome (perform_searches v w sched plan) = Returns results ∧
    run_writer w (writer_input v w q results) = Returns report ∧
    input = markdown_report report ∧
    omap yielded before =
      [trace_url v (gen_trace_id w); msg_planned v; msg_searched v; msg_written v] ∧
    match run_email w input with
    | Raises e => after = [] ∧ outcome (run v w sched q) = Raises e
    | Returns _ =>
        after = [Yielded (msg_sent v); Yielded input] ∧
        outcome (run v w sched q) = Returns tt
    end.
Proof.
  intros Hsplit.
  assert (Hcall : ∀ s, is_call email_agent (RunnerRun email_agent s) = true)
    by (intros s; by apply bool_decide_eq_true).
  destruct (run_planner w (planner_prompt v q)) as [plan|e] eqn:Hp.
  2: { rewrite (run_planner_raises _ _ _ _ _ Hp) in Hsplit. cbn [events] in Hsplit.
       exfalso. eapply (split_absent (is_call email_agent));
         [by apply planning_events_no_call|exact Hsplit|apply Hcall]. }
  destruct (outcome (perform_searches v w sched plan)) as [results|e] eqn:Hs.
  2: { rewrite (run_searching_raises _ _ _ _ _ _ Hp Hs) in Hsplit. cbn [events] in Hsplit.
       exfalso. eapply (split_absent (is_call email_agent)); [|exact Hsplit|apply Hcall].
       apply Forall_app. split; [by apply planning_events_no_call|].
       constructor; [done|]. by apply perform_searches_no_call. }
  destruct (run_writer w (writer_input v w q results)) as [report|e] eqn:Hw.
  2: { rewrite (run_writer_raises _ _ _ _ _ _ _ Hp Hs Hw) in Hsplit. cbn [events] in Hsplit.
       exfalso. eapply (split_absent (is_call email_agent)); [|exact Hsplit|apply Hcall].
       apply Forall_app. split; [by apply searched_no_call|]. by repeat constructor. }
  exists plan, results, report. do 3 (split; [done|]).
  rewrite (run_to_email v w sched q plan results report Hp Hs Hw) in *.
  destruct (run_email w (markdown_report report)) as [sent|e] eqn:He;
    cbn [events outcome] in *; symmetry in Hsplit;
    apply (split_at_unique (is_call email_agent)) in Hsplit as (-> & Hin & ->);
    try apply Hcall; try apply written_no_call; try by repeat constructor.
  all: injection Hin as ->; rewrite He; split; [done|]; split;
    [apply written_stream|done].
Qed.

Lemma email_call_position_witness :
  ∃ plan results report,
    run_planner Sample.world_email_down (planner_prompt openai_deep_research "q")
      = Returns plan ∧
    outcome (perform_searches openai_deep_research Sample.world_email_down Sample.fifo plan)
      = Returns results ∧
    run_writer Sample.world_email_down
      (writer_input openai_deep_research Sample.world_email_down "q" results)
      = Returns report ∧
    "# Report" = markdown_report report ∧
    omap yielded
      (firstn 12 (events (run openai_deep_research Sample.world_email_down Sample.fifo "q"))) =
      [ trace_url openai_deep_research (gen_trace_id Sample.world_email_down);
        msg_planned openai_deep_research; msg_searched openai_deep_research;
        msg_written openai_deep_research ] ∧
    match run_email Sample.world_email_down "# Report" with
    | Raises e =>
        @nil Event = [] ∧
        outcome (run openai_deep_research Sample.world_email_down Sample.fifo "q") = Raises e
    | Returns _ =>
        @nil Event = [Yielded (msg_sent openai_deep_research); Yielded "# Report"] ∧
        outcome (run openai_deep_research Sample.world_email_down Sample.fifo "q") = Returns tt
    end.
Proof.
  apply (email_call_position openai_deep_research Sample.world_email_down Sample.fifo "q"
           (firstn 12 (events (run openai_deep_research Sample.world_email_down
                                 Sample.fifo "q")))
           "# Report" []).
  reflexivity.
Defined.

(** C7 as stated fails: the e-mail agent is called before the report's text
    is yielded. *)
Lemma report_not_streamed_before_email :
  ¬ (∀ v w sched q before input after,
       events (run v w sched q) = before ++ RunnerRun email_agent input :: after →
       Yielded input ∈ before).
Proof.
  intros H.
  specialize (H openai_deep_research Sample.world_email_down Sample.fifo "q"
                (firstn 12 (events (run openai_deep_research Sample.world_email_down
                                      Sample.fifo "q")))
                "# Report" [] eq_refl).
  vm_compute in H.
  repeat (apply elem_of_cons in H as [H|H]; [discriminate H|]).
  by apply elem_of_nil in H.
Qed.

(** When the e-mail call raises, the consumer never receives the report. *)
Example email_failure_loses_report :
  let t := run openai_deep_research Sample.world_email_down Sample.fifo "q" in
  outcome t = Raises Sample.refused ∧
  stream t =
    [ "View trace: https://platform.openai.com/traces/trace?trace_id=trace_01";
      "Searches planned, starting to search...";
      "Searches complete, writing report...";
      "Report written, sending email..." ].
Proof. split; reflexivity. Qed.

(** ** Planning *)

(** C9, as the code has it.  [plan_searches] issues one planner call and
    ends as that call ends: an exception of the call reaches the caller,
    and a plan is returned as it came, with no check on its list of
    searches. *)
Theorem plan_searches_outcome v w q :
  plan_searches v w q =
    MkTrace [RunnerRun planner_agent (planner_prompt v q)]
            (run_planner w (planner_prompt v q)).
Proof.
  unfold plan_searches, Runner_run. trace_simpl.
  by destruct (run_planner w (planner_prompt v q)).
Qed.

(** C9 as stated fails: a planner that answers a plan without searches gets
    that plan returned by [plan_searches]. *)
Lemma plan_searches_returns_empty_plan :
  ¬ (∀ v w q plan,
       outcome (plan_searches v w q) = Returns plan → searches plan ≠ []).
Proof.
  intros H.
  by apply (H openai_deep_research Sample.world_empty_plan "q" Sample.empty_plan).
Qed.

(** ** The e-mail tool *)

(** C10.  Whenever SendGrid's post returns, whatever the response says,
    [send_mail] returns the dictionary [{"status": "success"}]. *)
Theorem send_mail_reports_success env subject html_body response :
  EmailAgent.post env (EmailAgent.getenv_SENDGRID_API_KEY env)
    (EmailAgent.mail_for subject html_body) = Returns response →
  EmailAgent.send_mail env subject html_body = Returns {[ "status" := "success" ]}.
Proof. unfold EmailAgent.send_mail. by intros ->. Qed.

Lemma send_mail_reports_success_witness :
  EmailAgent.send_mail Sample.rejecting "Report" "<h1>Report</h1>"
    = Returns {[ "status" := "success" ]}.
Proof.
  apply (send_mail_reports_success Sample.rejecting "Report" "<h1>Report</h1>"
           {| EmailAgent.status_code := 401; EmailAgent.body := "unauthorized" |}).
  reflexivity.
Defined.

(** * Further properties of the fan-out *)

Section fan_out_more.
Context (v : Variant) (w : World).

Lemma search_raises_inv i item e :
  search v w i item = Raises e →
  run_search w i (search_prompt v item) = Raises e ∧ isinstance_Exception e = false.
Proof.
  unfold search, try_except_Exception.
  destruct (run_search w i _) as [out|e']; [done|].
  destruct (isinstance_Exception e') eqn:He; [done|]. by intros [= ->].
Qed.

Lemma search_of_raise i item e :
  run_search w i (search_prompt v item) = Raises e →
  search v w i item = if isinstance_Exception e then Returns None else Raises e.
Proof. unfold search, try_except_Exception. by intros ->. Qed.

Lemma tasks_from_elem i items (t : Task) :
  t ∈ tasks_from v w i items →
  ∃ j item, items !! j = Some item ∧ t = (i + j, search v w (i + j) item).
Proof.
  revert i. induction items as [|x rest IH]; intros i Hin; simpl in Hin.
  - by apply elem_of_nil in Hin.
  - apply elem_of_cons in Hin as [->|Hin].
    + exists 0, x. by rewrite Nat.add_0_r.
    + destruct (IH _ Hin) as (j & item & Hj & ->).
      exists (S j), item. split; [done|]. by replace (i + S j) with (S i + j) by lia.
Qed.

Lemma successes_tasks_from i items :
  successes (tasks_from v w i items) = search_outputs v w i items.
Proof.
  revert i. induction items as [|x rest IH]; intros i; [done|].
  unfold successes in *. simpl. rewrite IH.
  unfold payload, search, try_except_Exception. simpl.
  destruct (run_search w i _) as [out|e]; [done|].
  by destruct (isinstance_Exception e).
Qed.

Lemma collect_raises_inv (done : list Task) acc e :
  outcome (collect done acc) = Raises e → ∃ t, t ∈ done ∧ t.2 = Raises e.
Proof.
  revert acc. induction done as [|[i [r|e']] rest IH]; intros acc H; trace_simpl.
  - done.
  - destruct (IH _ H) as (t & Hin & Ht). exists t. split; [by right|done].
  - simplify_eq. exists (i, Raises e). split; [by left|done].
Qed.

Lemma collect_joins done acc :
  Forall (λ ev, is_join ev = true) (events (collect done acc)).
Proof.
  revert acc. induction done as [|[i [r|e]] rest IH]; intros acc; trace_simpl.
  - constructor.
  - constructor; [done|]. apply IH.
  - constructor.
Qed.

Lemma joined_payloads (done : list Task) :
  Forall returned done →
  omap joined_payload (omap join_event done) = successes done.
Proof.
  induction 1 as [|[i o] rest [r Hr] _ IH]; [done|].
  simpl in Hr. subst o. unfold successes in *.
  cbn [omap list_omap join_event payload snd fst joined_payload].
  rewrite IH. by destruct r.
Qed.

Lemma calls_to_app a (l1 l2 : list Event) :
  calls_to a (l1 ++ l2) = calls_to a l1 ++ calls_to a l2.
Proof. apply omap_app. Qed.

Lemma calls_to_search_calls items :
  calls_to search_agent (search_call v <$> items) = search_prompt v <$> items.
Proof.
  induction items as [|x rest IH]; [done|].
  rewrite !fmap_cons. unfold calls_to in *. cbn [omap list_omap search_call call_input].
  rewrite decide_True by done. by rewrite IH.
Qed.

Lemma calls_to_joins a (log : list Event) :
  Forall (λ ev, is_join ev = true) log → calls_to a log = [].
Proof. induction 1 as [|[| |] ? ? ? IH]; simplify_eq/=; done. Qed.

Lemma no_payload_in_calls items :
  omap joined_payload (search_call v <$> items) = [].
Proof. by induction items. Qed.

Lemma fan_out_log_shape sched plan :
  ∃ joins,
    events (perform_searches v w sched plan) =
      (search_call v <$> searches plan) ++ joins ∧
    Forall (λ ev, is_join ev = true) joins ∧
    calls_to search_agent (events (perform_searches v w sched plan)) =
      search_prompt v <$> searches plan.
Proof.
  rewrite perform_searches_unfold. cbn [events].
  eexists. split; [reflexivity|].
  pose proof (collect_joins (as_completed sched (tasks_from v w 0 (searches plan))) [])
    as Hjoins.
  split; [done|].
  rewrite calls_to_app, calls_to_search_calls, (calls_to_joins _ _ Hjoins).
  by rewrite app_nil_r.
Qed.

Lemma fan_out_raise_origin sched plan e :
  outcome (perform_searches v w sched plan) = Raises e →
  ∃ i item,
    searches plan !! i = Some item ∧
    run_search w i (search_prompt v item) = Raises e ∧
    isinstance_Exception e = false.
Proof.
  rewrite perform_searches_unfold. cbn [outcome]. intros H.
  apply collect_raises_inv in H as (t & Hin & Ht).
  rewrite as_completed_perm in Hin.
  apply tasks_from_elem in Hin as (j & item & Hj & ->). simpl in Ht.
  exists j, item. split; [done|]. by apply search_raises_inv.
Qed.

Lemma fan_out_raises sched plan i item e :
  searches plan !! i = Some item →
  run_search w i (search_prompt v item) = Raises e →
  isinstance_Exception e = false →
  ∃ e', outcome (perform_searches v w sched plan) = Raises e' ∧
        isinstance_Exception e' = false.
Proof.
  intros Hitem Hrun He.
  destruct (outcome (perform_searches v w sched plan)) as [results|e'] eqn:Hout.
  - exfalso. apply perform_searches_inv in Hout.
    pose proof (tasks_from_lookup v w 0 _ _ _ Hitem) as Htask. simpl in Htask.
    destruct (proj1 (Forall_lookup _ _) Hout _ _ Htask) as [r Hr]. simpl in Hr.
    rewrite (search_of_raise i item e Hrun), He in Hr. done.
  - exists e'. split; [done|].
    by destruct (fan_out_raise_origin sched plan e' Hout) as (? & ? & ? & ? & ?).
Qed.

Lemma fan_out_results_content sched plan results :
  outcome (perform_searches v w sched plan) = Returns results →
  results ≡ₚ search_outputs v w 0 (searches plan).
Proof.
  intros H. pose proof (perform_searches_inv _ _ _ _ _ H) as Hall.
  rewrite perform_searches_returned in H by done. cbn [outcome] in H. simplify_eq.
  by rewrite successes_as_completed, successes_tasks_from.
Qed.



(** X3.  One item whose call raises something that is no instance of
    [Exception] makes [perform_searches] raise under every completion
    order, whatever the other items do. *)
Theorem perform_searches_raises sched plan i item e :
  searches plan !! i = Some item →
  run_search w i (search_prompt v item) = Raises e →
  isinstance_Exception e = false →
  ∃ e', outcome (perform_searches v w sched plan) = Raises e' ∧
        isinstance_Exception e' = false.
Proof. exact (fan_out_raises sched plan i item e). Qed.

(** X4.  What [perform_searches] returns is, up to order, the list of the
    search agent's answers: one entry for every item whose call returned,
    none for the others, nothing else. *)
Theorem perform_searches_results_content sched plan results :
  outcome (perform_searches v w sched plan) = Returns results →
  results ≡ₚ search_outputs v w 0 (searches plan).
Proof. exact (fan_out_results_content sched plan results). Qed.

(** X5.  The list [perform_searches] returns is in completion order: it is
    the sequence of the texts handed over by the joins of its log. *)
Theorem perform_searches_join_order sched plan results :
  outcome (perform_searches v w sched plan) = Returns results →
  results = omap joined_payload (events (perform_searches v w sched plan)).
Proof.
  intros H. pose proof (perform_searches_inv _ _ _ _ _ H) as Hall.
  rewrite perform_searches_returned in * by done. cbn [outcome events] in *.
  simplify_eq. rewrite omap_app, no_payload_in_calls, joined_payloads; [done|].
  by rewrite as_completed_perm.
Qed.



End fan_out_more.


Lemma perform_searches_raises_witness :
  ∃ e', outcome (perform_searches training_deep_search MoreSamples.world_one_interrupted
                   Sample.lifo Sample.plan3) = Raises e' ∧
        isinstance_Exception e' = false.
Proof.
  apply (perform_searches_raises training_deep_search MoreSamples.world_one_interrupted
           Sample.lifo Sample.plan3 1 {| reason := "tooling"; query := "stdpp" |}
           Sample.interrupt); reflexivity.
Defined.

Lemma perform_searches_results_content_witness :
  ["gamma"; "alpha"] ≡ₚ search_outputs openai_deep_research Sample.world_ok 0
                          (searches Sample.plan3).
Proof.
  apply (perform_searches_results_content openai_deep_research Sample.world_ok
           Sample.lifo Sample.plan3).
  reflexivity.
Defined.

Lemma perform_searches_join_order_witness :
  ["gamma"; "alpha"] =
  omap joined_payload
    (events (perform_searches openai_deep_research Sample.world_ok Sample.lifo
               Sample.plan3)).
Proof.
  apply (perform_searches_join_order openai_deep_research Sample.world_ok
           Sample.lifo Sample.plan3).
  reflexivity.
Defined.


(** * Further properties of the pipeline *)

Section pipeline_more.
Context (v : Variant) (w : World) (sched : Scheduler) (q : string).

Lemma no_call_calls_to a (log : list Event) :
  Forall (λ ev, is_call a ev = false) log → calls_to a log = [].
Proof.
  induction 1 as [|ev log Hev _ IH]; [done|].
  unfold calls_to in *. cbn [omap list_omap]. rewrite IH.
  destruct ev as [|a' input|]; try done. simpl in *.
  apply bool_decide_eq_false in Hev. by rewrite decide_False.
Qed.

Lemma searched_stream plan :
  omap yielded (searched_events v w sched q plan) =
  [trace_url v (gen_trace_id w); msg_planned v; msg_searched v].
Proof.
  unfold searched_events.
  rewrite omap_app. cbn [omap list_omap planning_events yielded app].
  rewrite omap_app, perform_searches_silent. done.
Qed.

Lemma calls_to_planning a :
  calls_to a (planning_events v w q) =
  if decide (a = planner_agent) then [planner_prompt v q] else [].
Proof. unfold calls_to. simpl. by destruct (decide _). Qed.

Lemma calls_to_perform_searches a plan :
  calls_to a (events (perform_searches v w sched plan)) =
  if decide (a = search_agent) then search_prompt v <$> searches plan else [].
Proof.
  destruct (decide (a = search_agent)) as [->|Ha].
  - by destruct (fan_out_log_shape v w sched plan) as (? & _ & _ & ?).
  - apply no_call_calls_to. by apply perform_searches_no_call.
Qed.

Lemma calls_to_yield a chunk (log : list Event) :
  calls_to a (Yielded chunk :: log) = calls_to a log.
Proof. done. Qed.

Lemma calls_to_call a a' input (log : list Event) :
  calls_to a (RunnerRun a' input :: log) =
  if decide (a = a') then input :: calls_to a log else calls_to a log.
Proof. unfold calls_to. simpl. by destruct (decide _). Qed.

Lemma writer_failure_log plan results e :
  run_planner w (planner_prompt v q) = Returns plan →
  outcome (perform_searches v w sched plan) = Returns results →
  run_writer w (writer_input v w q results) = Raises e →
  outcome (run v w sched q) = Raises e ∧
  stream (run v w sched q) =
    [trace_url v (gen_trace_id w); msg_planned v; msg_searched v] ∧
  calls_to email_agent (events (run v w sched q)) = [].
Proof.
  intros Hp Hs Hw. rewrite (run_writer_raises v w sched q plan results e Hp Hs Hw).
  split; [done|]. unfold stream. cbn [events]. split.
  - rewrite omap_app, searched_stream. done.
  - rewrite calls_to_app, no_call_calls_to by (by apply searched_no_call). done.
Qed.

(** X7.  A planner that answers a plan without searches: no search call is
    issued, [perform_searches] returns the empty list at once, and the
    writer is called with the results formatted as the two characters
    of an empty Python list. *)
Theorem run_empty_plan plan :
  run_planner w (planner_prompt v q) = Returns plan →
  searches plan = [] →
  perform_searches v w sched plan = MkTrace [] (Returns []) ∧
  ∃ tail,
    events (run v w sched q) =
      planning_events v w q ++
      [ Yielded (msg_planned v); Yielded (msg_searched v);
        RunnerRun writer_agent (writer_prompt v q "[]") ] ++ tail.
Proof.
  intros Hp Hempty.
  assert (Hs : perform_searches v w sched plan = MkTrace [] (Returns []))
    by (unfold perform_searches; by rewrite Hempty).
  split; [done|].
  destruct (run_to_writer v w sched q plan []) as (tail & -> & _);
    [done|by rewrite Hs|].
  exists tail. unfold searched_events. rewrite Hs. by rewrite <- app_assoc.
Qed.

(** X8.  When the writer's call raises, the run ends with that exception
    after three chunks, the last one announcing the end of the searches,
    and the e-mail agent is never called. *)
Theorem run_writer_failure plan results e :
  run_planner w (planner_prompt v q) = Returns plan →
  outcome (perform_searches v w sched plan) = Returns results →
  run_writer w (writer_input v w q results) = Raises e →
  outcome (run v w sched q) = Raises e ∧
  stream (run v w sched q) =
    [trace_url v (gen_trace_id w); msg_planned v; msg_searched v] ∧
  calls_to email_agent (events (run v w sched q)) = [].
Proof. exact (writer_failure_log plan results e). Qed.

(** X9.  When the call of one item raises something that is no instance of
    [Exception], the run ends with such an exception after two chunks, and
    neither the writer nor the e-mail agent is called. *)
Theorem run_searching_failure plan i item e :
  run_planner w (planner_prompt v q) = Returns plan →
  searches plan !! i = Some item →
  run_search w i (search_prompt v item) = Raises e →
  isinstance_Exception e = false →
  ∃ e',
    outcome (run v w sched q) = Raises e' ∧
    isinstance_Exception e' = false ∧
    stream (run v w sched q) = [trace_url v (gen_trace_id w); msg_planned v] ∧
    calls_to writer_agent (events (run v w sched q)) = [] ∧
    calls_to email_agent (events (run v w sched q)) = [].
Proof.
  intros Hp Hitem Hrun He.
  destruct (fan_out_raises v w sched plan i item e Hitem Hrun He)
    as (e' & Hs & He').
  exists e'. rewrite (run_searching_raises v w sched q plan e' Hp Hs).
  do 2 (split; [done|]). unfold stream. cbn [events]. split; [|split].
  - rewrite omap_app. cbn [omap list_omap planning_events yielded app].
    by rewrite perform_searches_silent.
  - rewrite calls_to_app, calls_to_planning, calls_to_yield,
      calls_to_perform_searches. done.
  - rewrite calls_to_app, calls_to_planning, calls_to_yield,
      calls_to_perform_searches. done.
Qed.

(** X10.  A run that ends with an exception has yielded between one and
    four chunks: a prefix of trace URL, "planned", "searched", "written".
    The trace URL is always yielded; the chunk announcing the e-mail and
    the report are never yielded by a failed run. *)
Theorem run_failure_stream e :
  outcome (run v w sched q) = Raises e →
  ∃ k, 1 ≤ k ≤ 4 ∧ stream (run v w sched q) = take k (status_chunks v w).
Proof.
  intros Hfail.
  destruct (run_planner w (planner_prompt v q)) as [plan|e1] eqn:Hp.
  2: { exists 1. split; [lia|]. by rewrite (run_planner_raises _ _ _ _ _ Hp). }
  destruct (outcome (perform_searches v w sched plan)) as [results|e2] eqn:Hs.
  2: { exists 2. split; [lia|]. rewrite (run_searching_raises _ _ _ _ _ _ Hp Hs).
       unfold stream. cbn [events].
       rewrite omap_app. cbn [omap list_omap planning_events yielded app].
       by rewrite perform_searches_silent. }
  destruct (run_writer w (writer_input v w q results)) as [report|e3] eqn:Hw.
  2: { exists 3. split; [lia|].
       by destruct (writer_failure_log plan results e3 Hp Hs Hw) as (_ & -> & _). }
  exists 4. split; [lia|].
  rewrite (run_to_email v w sched q plan results report Hp Hs Hw) in *.
  destruct (run_email w (markdown_report report)) as [sent|e4]; [done|].
  unfold stream. cbn [events]. rewrite omap_app, written_stream. done.
Qed.

End pipeline_more.

Lemma run_empty_plan_witness :
  perform_searches openai_deep_research Sample.world_empty_plan Sample.lifo
    Sample.empty_plan = MkTrace [] (Returns []) ∧
  ∃ tail,
    events (run openai_deep_research Sample.world_empty_plan Sample.lifo "q") =
      planning_events openai_deep_research Sample.world_empty_plan "q" ++
      [ Yielded (msg_planned openai_deep_research);
        Yielded (msg_searched openai_deep_research);
        RunnerRun writer_agent (writer_prompt openai_deep_research "q" "[]") ] ++ tail.
Proof.
  apply (run_empty_plan openai_deep_research Sample.world_empty_plan Sample.lifo "q"
           Sample.empty_plan); reflexivity.
Defined.

Lemma run_writer_failure_witness :
  outcome (run training_deep_search MoreSamples.world_writer_down Sample.fifo "q")
    = Raises Sample.refused ∧
  stream (run training_deep_search MoreSamples.world_writer_down Sample.fifo "q") =
    [ trace_url training_deep_search (gen_trace_id MoreSamples.world_writer_down);
      msg_planned training_deep_search; msg_searched training_deep_search ] ∧
  calls_to email_agent
    (events (run training_deep_search MoreSamples.world_writer_down Sample.fifo "q")) = [].
Proof.
  apply (run_writer_failure training_deep_search MoreSamples.world_writer_down
           Sample.fifo "q" Sample.plan3 ["alpha"; "gamma"]); reflexivity.
Defined.

Lemma run_searching_failure_witness :
  ∃ e',
    outcome (run openai_deep_research MoreSamples.world_one_interrupted Sample.fifo "q")
      = Raises e' ∧
    isinstance_Exception e' = false ∧
    stream (run openai_deep_research MoreSamples.world_one_interrupted Sample.fifo "q") =
      [ trace_url openai_deep_research (gen_trace_id MoreSamples.world_one_interrupted);
        msg_planned openai_deep_research ] ∧
    calls_to writer_agent
      (events (run openai_deep_research MoreSamples.world_one_interrupted Sample.fifo "q"))
      = [] ∧
    calls_to email_agent
      (events (run openai_deep_research MoreSamples.world_one_interrupted Sample.fifo "q"))
      = [].
Proof.
  apply (run_searching_failure openai_deep_research MoreSamples.world_one_interrupted
           Sample.fifo "q" Sample.plan3 1 {| reason := "tooling"; query := "stdpp" |}
           Sample.interrupt); reflexivity.
Defined.

Lemma run_failure_stream_witness :
  ∃ k, 1 ≤ k ≤ 4 ∧
    stream (run openai_deep_research Sample.world_email_down Sample.fifo "q") =
    take k (status_chunks openai_deep_research Sample.world_email_down).
Proof.
  apply (run_failure_stream openai_deep_research Sample.world_email_down Sample.fifo "q"
           Sample.refused).
  reflexivity.
Defined.

Section agents_of_a_run.
Context (v : Variant) (w : World) (sched : Scheduler) (q : string).


(** X12.  Whenever the writer is called, its prompt is the one built from
    the query and the list [perform_searches] returned, and that list is,
    up to order, the list of the search agent's answers. *)
Theorem run_writer_input input :
  RunnerRun writer_agent input ∈ events (run v w sched q) →
  ∃ plan results,
    run_planner w (planner_prompt v q) = Returns plan ∧
    outcome (perform_searches v w sched plan) = Returns results ∧
    input = writer_input v w q results ∧
    results ≡ₚ search_outputs v w 0 (searches plan).
Proof.
  intros Hin. apply list_elem_of_split in Hin as (before & after & Hsplit).
  assert (Hcall : is_call writer_agent (RunnerRun writer_agent input) = true)
    by (by apply bool_decide_eq_true).
  destruct (run_planner w (planner_prompt v q)) as [plan|e] eqn:Hp.
  2: { rewrite (run_planner_raises _ _ _ _ _ Hp) in Hsplit. cbn [events] in Hsplit.
       exfalso. eapply (split_absent (is_call writer_agent));
         [by apply planning_events_no_call|exact Hsplit|exact Hcall]. }
  destruct (outcome (perform_searches v w sched plan)) as [results|e] eqn:Hs.
  2: { rewrite (run_searching_raises _ _ _ _ _ _ Hp Hs) in Hsplit. cbn [events] in Hsplit.
       exfalso. eapply (split_absent (is_call writer_agent)); [|exact Hsplit|exact Hcall].
       apply Forall_app. split; [by apply planning_events_no_call|].
       constructor; [done|]. by apply perform_searches_no_call. }
  exists plan, results. do 2 (split; [done|]).
  destruct (run_to_writer v w sched q plan results Hp Hs) as (tail & Hev & Htail).
  rewrite Hev in Hsplit. symmetry in Hsplit.
  apply (split_at_unique (is_call writer_agent)) in Hsplit as (_ & Heq & _);
    [|done|by apply searched_no_call|done].
  split; [by injection Heq|].
  by apply (fan_out_results_content v w sched).
Qed.

End agents_of_a_run.

Lemma run_writer_input_witness :
  ∃ plan results,
    run_planner Sample.world_ok (planner_prompt openai_deep_research "q") = Returns plan ∧
    outcome (perform_searches openai_deep_research Sample.world_ok Sample.lifo plan)
      = Returns results ∧
    "Original query: q" +:+ newline +:+ "Summarized search results: ['gamma', 'alpha']" =
      writer_input openai_deep_research Sample.world_ok "q" results ∧
    results ≡ₚ search_outputs openai_deep_research Sample.world_ok 0 (searches plan).
Proof.
  apply (run_writer_input openai_deep_research Sample.world_ok Sample.lifo "q").
  apply (list_elem_of_lookup_2 _ 10). reflexivity.
Defined.

(** * The Gradio entry point *)

Lemma async_for_reyield (log : list Event) :
  DeepResearch.async_for_events log (λ chunk, emit (Yielded chunk)) =
  MkTrace log (Returns tt).
Proof.
  induction log as [|ev log IH]; [done|].
  destruct ev; cbn [DeepResearch.async_for_events]; rewrite IH; by trace_simpl.
Qed.

(** X13.  [run] of [deep_research.py] hands its consumer what the research
    manager's generator produces: the same chunks in the same order, the
    same calls in between, and the same end, normal or by the same
    exception. *)
Theorem deep_research_run_forwards w sched q :
  DeepResearch.run w sched q = ResearchManager.run training_deep_search w sched q.
Proof.
  unfold DeepResearch.run, DeepResearch.async_for.
  generalize (ResearchManager.run training_deep_search w sched q).
  intros [log [[]|e]]; cbn [events outcome]; rewrite async_for_reyield;
    trace_simpl; by rewrite ?app_nil_r.
Qed.

(** * The chat with tools *)

Section tool_chat.
Import ToolChat.
Context {Obj : Type} (env : Env Obj).

Lemma for_tool_calls_one c bound :
  for_tool_calls env [c] bound =
  match json_loads env (arguments c) with
  | Returns args => Returns (Some (c, args))
  | Raises e => Raises e
  end.
Proof. simpl. by destruct (json_loads env (arguments c)). Qed.

Lemma for_tool_calls_app earlier rest bound :
  Forall (parses env) earlier →
  ∃ bound', for_tool_calls env (earlier ++ rest) bound = for_tool_calls env rest bound'.
Proof.
  intros Hall. revert bound.
  induction Hall as [|c earlier [args Hc] _ IH]; intros bound; [by exists bound|].
  simpl. rewrite Hc. apply IH.
Qed.

Lemma for_tool_calls_raises before c after bound e :
  Forall (parses env) before →
  json_loads env (arguments c) = Raises e →
  for_tool_calls env (before ++ c :: after) bound = Raises e.
Proof.
  intros Hall Hc. destruct (for_tool_calls_app before (c :: after) bound Hall)
    as [bound' ->].
  simpl. by rewrite Hc.
Qed.

Lemma for_tool_calls_returns calls bound c args :
  for_tool_calls env calls bound = Returns (Some (c, args)) →
  (calls = [] ∧ bound = Some (c, args)) ∨ last calls = Some c.
Proof.
  revert bound. induction calls as [|c' rest IH]; intros bound H; simpl in H.
  - left. split; [done|]. by injection H.
  - right. destruct (json_loads env (arguments c')) as [a|e]; [|done].
    destruct (IH _ H) as [[-> Hb]|Hlast].
    + by injection Hb as -> _.
    + destruct rest; [done|]. by rewrite last_cons_cons.
Qed.

Lemma handle_tool_calls_snoc earlier c :
  Forall (parses env) earlier →
  handle_tool_calls env (Some (earlier ++ [c])) = handle_tool_calls env (Some [c]).
Proof.
  intros Hall. unfold handle_tool_calls.
  destruct (for_tool_calls_app earlier [c] None Hall) as [bound' ->].
  by rewrite !for_tool_calls_one.
Qed.

Lemma handle_tool_calls_single c args :
  json_loads env (arguments c) = Returns args →
  handle_tool_calls env (Some [c]) =
  match call_tool env (name c) args with
  | Raises e => Raises e
  | Returns result =>
      match dumps env result with
      | Raises e => Raises e
      | Returns text => Returns [ToolMessage text (id c)]
      end
  end.
Proof. intros Hc. unfold handle_tool_calls. by rewrite for_tool_calls_one, Hc. Qed.

Lemma handle_tool_calls_returns tool_calls results :
  handle_tool_calls env tool_calls = Returns results →
  ∃ calls c text,
    tool_calls = Some calls ∧ last calls = Some c ∧
    results = [ToolMessage text (id c)].
Proof.
  unfold handle_tool_calls. destruct tool_calls as [calls|]; [|done].
  destruct (for_tool_calls env calls None) as [[[c args]|]|e] eqn:Hfor; try done.
  destruct (call_tool env (name c) args) as [result|e]; [|done].
  destruct (dumps env result) as [text|e]; [|done].
  intros [= <-]. exists calls, c, text.
  destruct (for_tool_calls_returns _ _ _ _ Hfor) as [[_ ?]|Hlast]; done.
Qed.

(** X14.  Whenever [handle_tool_calls] returns, it returns one tool
    message, whatever the number of calls it was given, and the message
    carries the id of the last call.  Given no call at all it does not
    return. *)
Theorem handle_tool_calls_one_result tool_calls results :
  handle_tool_calls env tool_calls = Returns results →
  ∃ calls c text,
    tool_calls = Some calls ∧ last calls = Some c ∧
    results = [ToolMessage text (id c)].
Proof. exact (handle_tool_calls_returns tool_calls results). Qed.

(** X15.  Only the last call is executed: when the arguments of the
    earlier calls are valid JSON, [handle_tool_calls] does on the whole
    list what it does on the last call alone. *)
Theorem handle_tool_calls_last_only earlier c :
  Forall (parses env) earlier →
  handle_tool_calls env (Some (earlier ++ [c])) = handle_tool_calls env (Some [c]).
Proof. exact (handle_tool_calls_snoc earlier c). Qed.

(** X16.  Arguments that [json.loads] rejects, in any call of the list,
    make [handle_tool_calls] raise the error of the first such call; no
    tool is looked up. *)
Theorem handle_tool_calls_bad_json before c after e :
  Forall (parses env) before →
  json_loads env (arguments c) = Raises e →
  handle_tool_calls env (Some (before ++ c :: after)) = Raises e.
Proof.
  intros Hall Hc. unfold handle_tool_calls.
  by rewrite (for_tool_calls_raises before c after None e Hall Hc).
Qed.

(** X17.  [record_user_details] asked for with arguments that lack
    ["name"] raises [TypeError], also when they hold the ["email"] that the
    tool's JSON description gives as the only required field. *)
Theorem record_user_details_needs_name earlier c kwargs :
  Forall (parses env) earlier →
  name c = "record_user_details" →
  json_loads env (arguments c) = Returns (Mapping kwargs) →
  kwargs !! "name" = None →
  handle_tool_calls env (Some (earlier ++ [c])) = Raises TypeError.
Proof.
  intros Hall Hname Hc Hmissing.
  rewrite (handle_tool_calls_snoc earlier c Hall), (handle_tool_calls_single c _ Hc).
  unfold call_tool, globals_get. rewrite Hname, decide_True by done.
  unfold record_user_details. rewrite Hmissing. by destruct (decide _).
Qed.


(** X19.  A response whose finish reason is anything but the text
    ["tool_call"] ends the chat: its content, which may be [None], is
    returned whatever tool calls it carries.  The spelling ["tool_calls"]
    is such a reason. *)
Theorem chat_final_answer fuel message history response :
  create env ([RoleContent "system" (system_prompt env)] ++ history ++
              [RoleContent "user" message]) = Returns response →
  finish_reason response ≠ "tool_call" →
  chat env (S fuel) message history = Some (Returns (content (ToolChat.message response))).
Proof.
  intros Hcreate Hreason. unfold chat. cbn [chat_loop].
  rewrite Hcreate. by rewrite decide_False.
Qed.


(** X21.  The loop of [chat] has no bound of its own: with a model that
    answers every conversation by asking for a tool that can be handled,
    no number of rounds reaches the end of the loop. *)
Theorem chat_unbounded :
  (∀ messages, ∃ response results,
     create env messages = Returns response ∧
     finish_reason response = "tool_call" ∧
     handle_tool_calls env (tool_calls (ToolChat.message response)) = Returns results) →
  ∀ fuel message history, chat env fuel message history = None.
Proof.
  intros Hmodel fuel message history. unfold chat.
  generalize ([RoleContent "system" (system_prompt env)] ++ history ++
              [RoleContent "user" message]).
  induction fuel as [|fuel IH]; intros messages; [done|].
  destruct (Hmodel messages) as (response & results & Hcreate & Hreason & Hhandle).
  cbn [chat_loop]. rewrite Hcreate, decide_True by done. rewrite Hhandle. apply IH.
Qed.

End tool_chat.

Lemma sample_parses (c : ToolChat.ToolCall) :
  ToolChat.arguments c ≠ "bad" → ToolChat.parses ToolChat.sample_env c.
Proof.
  intros Hc. eexists. unfold ToolChat.sample_env. simpl. by rewrite decide_False.
Qed.

Lemma handle_tool_calls_one_result_witness :
  ∃ calls c text,
    Some [ToolChat.call_details; ToolChat.call_nothing] = Some calls ∧
    last calls = Some c ∧
    [ToolChat.ToolMessage "{}" "call_1"] = [ToolChat.ToolMessage text (ToolChat.id c)].
Proof.
  apply (handle_tool_calls_one_result ToolChat.sample_env
           (Some [ToolChat.call_details; ToolChat.call_nothing])).
  reflexivity.
Defined.

Lemma handle_tool_calls_last_only_witness :
  ToolChat.handle_tool_calls ToolChat.sample_env
    (Some ([ToolChat.call_details] ++ [ToolChat.call_nothing])) =
  ToolChat.handle_tool_calls ToolChat.sample_env (Some [ToolChat.call_nothing]).
Proof.
  apply (handle_tool_calls_last_only ToolChat.sample_env [ToolChat.call_details]).
  repeat constructor. by apply sample_parses.
Defined.

Lemma handle_tool_calls_bad_json_witness :
  ToolChat.handle_tool_calls ToolChat.sample_env
    (Some ([ToolChat.call_nothing] ++ ToolChat.call_bad :: [ToolChat.call_nothing])) =
  Raises (Exception "JSONDecodeError" EmptyString).
Proof.
  apply (handle_tool_calls_bad_json ToolChat.sample_env [ToolChat.call_nothing]
           ToolChat.call_bad [ToolChat.call_nothing]).
  - repeat constructor. by apply sample_parses.
  - reflexivity.
Defined.

Lemma record_user_details_needs_name_witness :
  ToolChat.handle_tool_calls ToolChat.sample_env
    (Some ([ToolChat.call_nothing] ++ [ToolChat.call_details])) =
  Raises ToolChat.TypeError.
Proof.
  apply (record_user_details_needs_name ToolChat.sample_env [ToolChat.call_nothing]
           ToolChat.call_details {[ "email" := "ada@example.org" ]}).
  - repeat constructor. by apply sample_parses.
  - reflexivity.
  - reflexivity.
  - by apply lookup_singleton_ne.
Defined.


Lemma chat_final_answer_witness :
  ToolChat.chat (ToolChat.answering_env "tool_calls") (S 0) "hi" [] =
  Some (Returns (Some "hello")).
Proof.
  apply (chat_final_answer (ToolChat.answering_env "tool_calls") 0 "hi" []
           {| ToolChat.finish_reason := "tool_calls";
              ToolChat.message :=
                {| ToolChat.content := Some "hello";
                   ToolChat.tool_calls := Some [ToolChat.call_nothing] |} |}).
  - reflexivity.
  - discriminate.
Defined.


Lemma chat_unbounded_witness :
  ToolChat.chat ToolChat.sample_env 5 "hi" [] = None.
Proof.
  apply (chat_unbounded ToolChat.sample_env).
  intros messages. do 2 eexists. split; [reflexivity|]. split; reflexivity.
Defined.
